(** * Ollama_streamlit.py: a shallow embedding and its specification

    The development follows the layout of the script:
    - values of the Python runtime that the script manipulates (decoded
      JSON, exceptions), with the few built-in operations it uses on them;
    - the helpers [api_url] and [auth_headers];
    - [list_models] (the body under the cache decorator);
    - the generator [stream_chat], as the finite trace of what it does
      between two resumptions;
    - the module-level block that drives the generator and commits the
      assistant turn to the session transcript.

    The HTTP library and the JSON decoder are not part of the script: they
    are variables of the section [Script], so every theorem holds for any
    server and any decoder.  A small decoder for a subset of JSON is given
    afterwards, to run the script on concrete responses. *)

From Stdlib Require Import ZArith String Ascii List Bool Lia Floats.
Import ListNotations.
Local Open Scope string_scope.
Local Open Scope Z_scope.

Set Warnings "-register-all".

(** ** Python values *)

(** What [json.loads] can return, which is also every value the script
    handles.  A [dict] decoded from JSON has string keys; it is kept as an
    association list in which a key occurs once. *)
Inductive pyval : Type :=
| PNone
| PBool (b : bool)
| PInt (z : Z)
| PFloat (f : float)
| PStr (s : string)
| PList (l : list pyval)
| PDict (d : list (string * pyval)).

(** The exceptions that reach the script (all of them subclasses of
    [Exception]).  [RequestException] stands for the transport failures of
    the HTTP library (connection refused, timeout, broken chunked body).
    [JSONDecodeError] is what [json.loads] raises on a text that is not
    JSON; [ValueError], [RecursionError] and [UnicodeDecodeError] are what it
    raises besides (an integer of too many digits, too deep a nesting, bytes
    that are not text), none of which is a [JSONDecodeError]. *)
Inductive exn : Type :=
| RequestException (what : string)
| HTTPError (status : Z)
| JSONDecodeError
| ValueError
| RecursionError
| UnicodeDecodeError
| RuntimeError (arg : pyval)
| TypeError
| AttributeError
| KeyError (key : string).

(** A computation that returns or raises. *)
Inductive py (A : Type) : Type :=
| Ret (a : A)
| Raise (e : exn).
Arguments Ret {A} a.
Arguments Raise {A} e.

Definition py_bind {A B : Type} (c : py A) (k : A -> py B) : py B :=
  match c with
  | Ret a => k a
  | Raise e => Raise e
  end.

Declare Scope py_scope.
Delimit Scope py_scope with py.
Notation "x <- c ;; k" := (py_bind c (fun x => k))
  (at level 61, c at next level, right associativity) : py_scope.

Fixpoint py_mapM {A B : Type} (f : A -> py B) (l : list A) : py (list B) :=
  match l with
  | [] => Ret []
  | a :: l' =>
      (b <- f a ;; bs <- py_mapM f l' ;; Ret (b :: bs))%py
  end.

(** ** Strings

    A [string] is read as a Python [str] whose code points are below 256. *)

Fixpoint in_chars (c : ascii) (chars : string) : bool :=
  match chars with
  | EmptyString => false
  | String c' chars' => Ascii.eqb c c' || in_chars c chars'
  end.

(** [s.rstrip(chars)] when [strip_it] is membership in [chars]. *)
Fixpoint rstrip_by (strip_it : ascii -> bool) (s : string) : string :=
  match s with
  | EmptyString => EmptyString
  | String c s' =>
      match rstrip_by strip_it s' with
      | EmptyString => if strip_it c then EmptyString else String c EmptyString
      | kept => String c kept
      end
  end.

Fixpoint lstrip_by (strip_it : ascii -> bool) (s : string) : string :=
  match s with
  | EmptyString => EmptyString
  | String c s' => if strip_it c then lstrip_by strip_it s' else s
  end.

Definition rstrip (chars s : string) : string :=
  rstrip_by (fun c => in_chars c chars) s.

(** [str.isspace] on one code point below 256: TAB..CR, FS..US, space,
    NEL and the no-break space. *)
Definition isspace (c : ascii) : bool :=
  let n := Z.of_nat (nat_of_ascii c) in
  ((9 <=? n) && (n <=? 13)) || ((28 <=? n) && (n <=? 32))
  || (n =? 133) || (n =? 160).

(** [s.strip()] *)
Definition strip (s : string) : string :=
  lstrip_by isspace (rstrip_by isspace s).

(** [needle in haystack] on two strings. *)
Fixpoint str_contains (needle haystack : string) : bool :=
  String.prefix needle haystack
  || match haystack with
     | EmptyString => false
     | String _ h' => str_contains needle h'
     end.

Definition str_chars (s : string) : list string :=
  map (fun c => String c EmptyString) (list_ascii_of_string s).

(** ** Truth value, membership, subscription, [dict.get] *)

Definition truthy (v : pyval) : bool :=
  match v with
  | PNone => false
  | PBool b => b
  | PInt z => negb (z =? 0)
  | PFloat f => negb (PrimFloat.eqb f 0%float)
  | PStr s => negb (String.eqb s "")
  | PList l => match l with [] => false | _ :: _ => true end
  | PDict d => match d with [] => false | _ :: _ => true end
  end.

Fixpoint dict_lookup (key : string) (d : list (string * pyval)) : option pyval :=
  match d with
  | [] => None
  | (k, v) :: d' => if String.eqb key k then Some v else dict_lookup key d'
  end.

Definition is_str (key : string) (v : pyval) : bool :=
  match v with
  | PStr s => String.eqb key s
  | _ => false
  end.

(** [key in obj] for a string [key]. *)
Definition py_in (key : string) (obj : pyval) : py bool :=
  match obj with
  | PDict d => Ret (match dict_lookup key d with Some _ => true | None => false end)
  | PList l => Ret (existsb (is_str key) l)
  | PStr s => Ret (str_contains key s)
  | PNone | PBool _ | PInt _ | PFloat _ => Raise TypeError
  end.

(** [obj[key]] for a string [key]. *)
Definition py_getitem (obj : pyval) (key : string) : py pyval :=
  match obj with
  | PDict d =>
      match dict_lookup key d with
      | Some v => Ret v
      | None => Raise (KeyError key)
      end
  | _ => Raise TypeError
  end.

(** [obj.get(key, default)]: only a [dict] has the method. *)
Definition py_get (obj : pyval) (key : string) (default : pyval) : py pyval :=
  match obj with
  | PDict d =>
      match dict_lookup key d with
      | Some v => Ret v
      | None => Ret default
      end
  | _ => Raise AttributeError
  end.

(** The values a [for] loop draws from [obj]. *)
Definition py_iter (obj : pyval) : py (list pyval) :=
  match obj with
  | PList l => Ret l
  | PDict d => Ret (map (fun kv => PStr (fst kv)) d)
  | PStr s => Ret (map PStr (str_chars s))
  | PNone | PBool _ | PInt _ | PFloat _ => Raise TypeError
  end.

(** ["".join(parts)]: every part has to be a [str]. *)
Fixpoint py_join (parts : list pyval) : py string :=
  match parts with
  | [] => Ret ""
  | PStr s :: parts' => (rest <- py_join parts' ;; Ret (s ++ rest))%py
  | _ :: _ => Raise TypeError
  end.

(** ** Helpers *)

Definition api_url (base_url path : string) : string :=
  rstrip "/" base_url ++ path.

Definition headers : Type := list (string * string).

Definition auth_headers (api_key : option string) : headers :=
  let hdrs := [("Content-Type", "application/json")] in
  match api_key with
  | Some key =>
      if negb (String.eqb key "")
      then app hdrs [("Authorization", "Bearer " ++ key)]
      else hdrs
  | None => hdrs
  end.

(** ** What the script exchanges with its environment *)

(** A response of the HTTP library, by what the script asks of it:
    [status_code] (read by [raise_for_status]), [text] (decoded by
    [resp.json()]), the lines that [iter_lines] hands out, and the
    exception, if any, that [iter_lines] raises once those are exhausted
    (a connection that drops mid-stream). *)
Record response : Type := {
  status_code : Z;
  text : string;
  iter_lines : list string;
  stream_error : option exn
}.

(** One entry of [st.session_state.messages]. *)
Record message : Type := {
  role : string;
  content : string
}.

(** The body posted to /api/chat, before [json.dumps]. *)
Record payload : Type := {
  payload_model : string;
  payload_messages : list message;
  payload_stream : bool;
  payload_temperature : float
}.

(** What the script shows to the operator. *)
Inductive ui_event : Type :=
| StWarning (base_url : string) (e : exn)
| StError (e : exn)
| ChatMarkdown (who text : string)
| PlaceholderMarkdown (text : string).

(** The state a run of the script works on: the transcript kept in the
    session, and what was rendered so far (latest first). *)
Record session : Type := {
  messages : list message;
  ui : list ui_event
}.

Definition render (ev : ui_event) (w : session) : session :=
  {| messages := messages w; ui := ev :: ui w |}.

Definition append_message (m : message) (w : session) : session :=
  {| messages := app (messages w) [m]; ui := ui w |}.

Definition system_message : message :=
  {| role := "system"; content := "You are a helpful assistant." |}.

Definition default_models : list pyval :=
  [PStr "llama3.1"; PStr "llama3"; PStr "qwen2.5"; PStr "phi4"].

(** ** A decoder for a subset of JSON

    [json_loads_lite] accepts objects, arrays, strings with one-letter
    escapes, integers and the three literals, with the whitespace and the
    duplicate-key rule of [json.loads]; on a text it accepts it returns what
    [json.loads] returns, and on an integer of more than 4300 digits it
    raises [ValueError] as [json.loads] does.  Anything else (floats,
    unicode escapes, NaN, text that is not JSON) is refused with
    [JSONDecodeError]. *)

Definition is_ws (c : ascii) : bool :=
  in_chars c (String " " (String "009" (String "010" (String "013" EmptyString)))).

Fixpoint skip_ws (s : string) : string :=
  match s with
  | String c s' => if is_ws c then skip_ws s' else s
  | EmptyString => EmptyString
  end.

Definition is_digit (c : ascii) : bool :=
  let n := nat_of_ascii c in (48 <=? n)%nat && (n <=? 57)%nat.

Definition quote : ascii := "034"%char.

(** The character that a one-letter escape stands for. *)
Definition unescape (c : ascii) : option ascii :=
  if Ascii.eqb c quote then Some quote
  else if Ascii.eqb c "\"%char then Some "\"%char
  else if Ascii.eqb c "/"%char then Some "/"%char
  else if Ascii.eqb c "b"%char then Some "008"%char
  else if Ascii.eqb c "f"%char then Some "012"%char
  else if Ascii.eqb c "n"%char then Some "010"%char
  else if Ascii.eqb c "r"%char then Some "013"%char
  else if Ascii.eqb c "t"%char then Some "009"%char
  else None.

(** The characters up to the closing quote, and what follows it. *)
Fixpoint scan_string (s : string) : option (string * string) :=
  match s with
  | EmptyString => None
  | String c s' =>
      if Ascii.eqb c quote then Some (EmptyString, s')
      else if Ascii.eqb c "\"%char then
        match s' with
        | String e s'' =>
            match unescape e, scan_string s'' with
            | Some c', Some (body, rest) => Some (String c' body, rest)
            | _, _ => None
            end
        | EmptyString => None
        end
      else if (nat_of_ascii c <? 32)%nat then None
      else match scan_string s' with
           | Some (body, rest) => Some (String c body, rest)
           | None => None
           end
  end.

Fixpoint scan_digits (s : string) (value : Z) : Z * string :=
  match s with
  | String c s' =>
      if is_digit c
      then scan_digits s' (10 * value + (Z.of_nat (nat_of_ascii c) - 48))
      else (value, s)
  | EmptyString => (value, s)
  end.

Definition starts_float (s : string) : bool :=
  match s with
  | String c _ => in_chars c ".eE"
  | EmptyString => false
  end.

(** [sys.int_max_str_digits] *)
Definition int_max_str_digits : nat := 4300.

(** An optional minus sign, then 0 or a digit string that does not start
    with 0; not followed by a fraction or an exponent.  The conversion of
    the digits fails with [ValueError] when there are too many of them. *)
Definition scan_int (s : string) : py (pyval * string) :=
  let (negative, digits) :=
    match s with
    | String "-"%char s' => (true, s')
    | _ => (false, s)
    end in
  match digits with
  | String c s' =>
      if negb (is_digit c) then Raise JSONDecodeError
      else
        let (value, rest) :=
          if Ascii.eqb c "0"%char then (0, s') else scan_digits digits 0 in
        if starts_float rest then Raise JSONDecodeError
        else if (int_max_str_digits
                 <? String.length digits - String.length rest)%nat
        then Raise ValueError
        else Ret (PInt (if negative then - value else value), rest)
  | EmptyString => Raise JSONDecodeError
  end.

Fixpoint drop_chars (n : nat) (s : string) : string :=
  match n, s with
  | S n', String _ s' => drop_chars n' s'
  | _, _ => s
  end.

Definition scan_literal (s : string) : py (pyval * string) :=
  if String.prefix "null" s then Ret (PNone, drop_chars 4 s)
  else if String.prefix "true" s then Ret (PBool true, drop_chars 4 s)
  else if String.prefix "false" s then Ret (PBool false, drop_chars 5 s)
  else Raise JSONDecodeError.

(** [d[key] = v]: a key already present keeps its place. *)
Fixpoint dict_set (key : string) (v : pyval) (d : list (string * pyval))
  : list (string * pyval) :=
  match d with
  | [] => [(key, v)]
  | (k, v') :: d' =>
      if String.eqb key k then (k, v) :: d' else (k, v') :: dict_set key v d'
  end.

Fixpoint decode_value (fuel : nat) (s : string) {struct fuel}
  : py (pyval * string) :=
  match fuel with
  | O => Raise JSONDecodeError
  | S fuel' =>
      match s with
      | EmptyString => Raise JSONDecodeError
      | String c s' =>
          if Ascii.eqb c quote then
            match scan_string s' with
            | Some (body, rest) => Ret (PStr body, rest)
            | None => Raise JSONDecodeError
            end
          else if Ascii.eqb c "{"%char then
            match skip_ws s' with
            | String "}"%char rest => Ret (PDict [], rest)
            | members => decode_members fuel' members []
            end
          else if Ascii.eqb c "["%char then
            match skip_ws s' with
            | String "]"%char rest => Ret (PList [], rest)
            | elements => decode_elements fuel' elements []
            end
          else if is_digit c || Ascii.eqb c "-"%char then scan_int s
          else scan_literal s
      end
  end

with decode_elements (fuel : nat) (s : string) (seen : list pyval) {struct fuel}
  : py (pyval * string) :=
  match fuel with
  | O => Raise JSONDecodeError
  | S fuel' =>
      match decode_value fuel' s with
      | Ret (v, rest) =>
          match skip_ws rest with
          | String ","%char rest' =>
              decode_elements fuel' (skip_ws rest') (app seen [v])
          | String "]"%char rest' => Ret (PList (app seen [v]), rest')
          | _ => Raise JSONDecodeError
          end
      | Raise e => Raise e
      end
  end

with decode_members (fuel : nat) (s : string) (seen : list (string * pyval))
  {struct fuel} : py (pyval * string) :=
  match fuel with
  | O => Raise JSONDecodeError
  | S fuel' =>
      match s with
      | String c s' =>
          if negb (Ascii.eqb c quote) then Raise JSONDecodeError
          else
            match scan_string s' with
            | Some (key, rest) =>
                match skip_ws rest with
                | String ":"%char rest' =>
                    match decode_value fuel' (skip_ws rest') with
                    | Ret (v, rest'') =>
                        match skip_ws rest'' with
                        | String ","%char more =>
                            decode_members fuel' (skip_ws more)
                                           (dict_set key v seen)
                        | String "}"%char after =>
                            Ret (PDict (dict_set key v seen), after)
                        | _ => Raise JSONDecodeError
                        end
                    | Raise e => Raise e
                    end
                | _ => Raise JSONDecodeError
                end
            | None => Raise JSONDecodeError
            end
      | EmptyString => Raise JSONDecodeError
      end
  end.

Definition json_loads_lite (s : string) : py pyval :=
  match decode_value (2 * String.length s + 2) (skip_ws s) with
  | Ret (v, rest) =>
      match skip_ws rest with
      | EmptyString => Ret v
      | String _ _ => Raise JSONDecodeError
      end
  | Raise e => Raise e
  end.

(** JSON text is easier to read with its quotes written as apostrophes:
    [dq] puts the quotes back. *)
Fixpoint dq (s : string) : string :=
  match s with
  | EmptyString => EmptyString
  | String c s' => String (if Ascii.eqb c "'"%char then quote else c) (dq s')
  end.

(** ** Session-level effects *)

(** A step of the script: it may render, change the transcript, and raise.
    What was done before an exception stays done. *)
Definition M (A : Type) : Type := session -> py A * session.

Definition m_ret {A : Type} (a : A) : M A := fun w => (Ret a, w).

Definition m_bind {A B : Type} (c : M A) (k : A -> M B) : M B :=
  fun w =>
    match c w with
    | (Ret a, w') => k a w'
    | (Raise e, w') => (Raise e, w')
    end.

Definition m_lift {A : Type} (c : py A) : M A := fun w => (c, w).

Definition m_do (f : session -> session) : M unit := fun w => (Ret tt, f w).

(** [try: body / except Exception as e: handler e] *)
Definition try_except {A : Type} (body : M A) (handler : exn -> M A) : M A :=
  fun w =>
    match body w with
    | (Ret a, w') => (Ret a, w')
    | (Raise e, w') => handler e w'
    end.

Declare Scope m_scope.
Delimit Scope m_scope with M.
Notation "x <- c ;; k" := (m_bind c (fun x => k))
  (at level 61, c at next level, right associativity) : m_scope.
Notation "c ;;; k" := (m_bind c (fun _ => k))
  (at level 61, right associativity) : m_scope.

(** ** The generator protocol *)

(** What a generator does until it is exhausted: it draws a line from the
    response, hands a chunk to its consumer (and is suspended there),
    returns, or raises.  The consumer sees [Yield], [Stop] and [Throw]. *)
Inductive gen : Type :=
| Pull (line : string) (k : gen)
| Yield (chunk : pyval) (k : gen)
| Stop
| Throw (e : exn).

(** How one turn of the [for line in ...] loop ends. *)
Inductive flow : Type :=
| Next
| Break
| Fail (e : exn).

(** How a generator that is run to its end ends. *)
Inductive gen_end : Type :=
| Completed
| Raised (e : exn).

Fixpoint lines_read (g : gen) : list string :=
  match g with
  | Pull line k => line :: lines_read k
  | Yield _ k => lines_read k
  | Stop | Throw _ => []
  end.

Fixpoint yielded (g : gen) : list pyval :=
  match g with
  | Pull _ k => yielded k
  | Yield chunk k => chunk :: yielded k
  | Stop | Throw _ => []
  end.

Fixpoint outcome (g : gen) : gen_end :=
  match g with
  | Pull _ k | Yield _ k => outcome k
  | Stop => Completed
  | Throw e => Raised e
  end.

(** How the [for chunk in ...] loop of the script ends: the generator is
    exhausted, the generator raised, or the loop body raised (and the
    generator is abandoned where it was suspended). *)
Inductive loop_end : Type :=
| Exhausted (acc : list pyval)
| GenRaised (e : exn)
| BodyRaised (e : exn).

(** ** Sample servers and sessions

    Concrete environments on which the script is run below. *)

Definition answers_tags (status : Z) (body : string)
  : string -> headers -> py response :=
  fun _ _ =>
    Ret {| status_code := status; text := body;
           iter_lines := []; stream_error := None |}.

Definition answers_chat (status : Z) (lines : list string) (at_end : option exn)
  : string -> headers -> payload -> py response :=
  fun _ _ _ =>
    Ret {| status_code := status; text := "";
           iter_lines := lines; stream_error := at_end |}.

Definition local_url : string := "http://localhost:11434".

Definition hel_line : string := dq "{'message':{'content':'Hel'}}".
Definition lo_line : string := dq "{'message':{'content':'lo'}}".
Definition done_true_line : string := dq "{'done':true}".
Definition rate_limited_line : string := dq "{'error': 'rate limited'}".
Definition error_and_done_line : string := dq "{'error':'boom','done':true}".

(** A stream with a blank line, a line that is not JSON, and a line after
    the [done] marker. *)
Definition hello_lines : list string :=
  [hel_line; ""; "not json"; lo_line; done_true_line;
   dq "{'message':{'content':' again'}}"].

Definition rate_limited_lines : list string :=
  [hel_line; rate_limited_line; lo_line; done_true_line].

Definition catalog_body : string :=
  dq "{'models': [{'name': 'qwen2.5:7b', 'size': 4683}, {'name': 'phi4'}, {'name': 'phi4'}]}".

Definition nameless_body : string :=
  dq "{'models': [{'name': 'phi4'}, {'model': 'llama3'}]}".

(** The session once the user turn was appended. *)
Definition asked : session :=
  {| messages := [system_message; {| role := "user"; content := "Say hello" |}];
     ui := [] |}.

(** ** The rest of the script: headers, sidebar, history, reset *)

(** [hdrs.get(name)] on the headers that [auth_headers] builds. *)
Fixpoint header_get (name : string) (hdrs : headers) : option string :=
  match hdrs with
  | [] => None
  | (k, v) :: hdrs' =>
      if String.eqb name k then Some v else header_get name hdrs'
  end.

(** The last character of [s] satisfies [p]. *)
Fixpoint ends_in (p : ascii -> bool) (s : string) : bool :=
  match s with
  | EmptyString => false
  | String c EmptyString => p c
  | String _ s' => ends_in p s'
  end.

(** The first character of [s] satisfies [p]. *)
Definition starts_in (p : ascii -> bool) (s : string) : bool :=
  match s with
  | EmptyString => false
  | String c _ => p c
  end.

Fixpoint all_chars (p : ascii -> bool) (s : string) : bool :=
  match s with
  | EmptyString => true
  | String c s' => p c && all_chars p s'
  end.

Definition is_slash (c : ascii) : bool := in_chars c "/".

(** Every chunk of the list is a [str]. *)
Fixpoint all_str (parts : list pyval) : bool :=
  match parts with
  | [] => true
  | PStr _ :: parts' => all_str parts'
  | _ :: _ => false
  end.

(** The text of a list of [str] chunks (empty when one is not a [str]). *)
Definition joined_text (parts : list pyval) : string :=
  match py_join parts with
  | Ret joined => joined
  | Raise _ => ""
  end.

Definition completed (g : gen) : bool :=
  match outcome g with
  | Completed => true
  | Raised _ => false
  end.

(** *** Sidebar: the endpoint *)

Definition cloud_url : string := "https://ollama.com".

Definition endpoint_options : list string :=
  ["Local (http://localhost:11434)"; "Cloud (https://ollama.com)"; "Custom"].

(** The [index] given to [st.radio], from [DEFAULT_BASE_URL]. *)
Definition default_endpoint_index (default_base_url : string) : nat :=
  if String.prefix "https://ollama.com" default_base_url then 1%nat else 0%nat.

(** [base_url], from the option chosen and the content of the text input
    (which is only asked for under "Custom"). *)
Definition choose_base_url (base_choice custom : string) : string :=
  if String.prefix "Local" base_choice then "http://localhost:11434"
  else if String.prefix "Cloud" base_choice then "https://ollama.com"
  else custom.

(** [base_url] on the first run: the radio stands on its default option,
    the text input on its default value [DEFAULT_BASE_URL]. *)
Definition initial_base_url (default_base_url : string) : string :=
  choose_base_url
    (nth (default_endpoint_index default_base_url) endpoint_options "")
    default_base_url.

(** *** Session state and chat history *)

(** [if "messages" not in st.session_state: ...]: [stored] is what the
    session holds under that key, if anything. *)
Definition init_messages (stored : option (list message)) : list message :=
  match stored with
  | None => [system_message]
  | Some msgs => msgs
  end.

(** The loop that renders the chat history. *)
Fixpoint render_history (msgs : list message) (w : session) : session :=
  match msgs with
  | [] => w
  | m :: rest =>
      if String.eqb (role m) "system" then render_history rest w
      else render_history rest (render (ChatMarkdown (role m) (content m)) w)
  end.

(** The "Clear chat" button. *)
Definition clear_chat (w : session) : session :=
  {| messages := [system_message]; ui := ui w |}.

(** A transcript as the script keeps it: the system message, then user and
    assistant turns. *)
Definition valid_transcript (msgs : list message) : Prop :=
  exists turns,
    msgs = system_message :: turns
    /\ Forall (fun m => role m = "user" \/ role m = "assistant") turns.

(** Further sample lines. *)
Definition number_content_line : string := dq "{'message':{'content':5}}".

(** A stream that ends without a [done] marker. *)
Definition unmarked_lines : list string := [hel_line; ""; lo_line].

(** A stream in which a message content is a number. *)
Definition number_lines : list string :=
  [hel_line; number_content_line; done_true_line].

(** A server that cannot be reached. *)
Definition refuses_chat : string -> headers -> payload -> py response :=
  fun _ _ _ => Raise (RequestException "Connection refused").

(** The [str] chunks of a list. *)
Fixpoint str_values (parts : list pyval) : list string :=
  match parts with
  | [] => []
  | PStr s :: parts' => s :: str_values parts'
  | _ :: parts' => str_values parts'
  end.

(** The texts that a growing accumulator shows: after each fragment, what
    was there followed by all the fragments so far. *)
Fixpoint running_texts (so_far : string) (fragments : list string)
  : list string :=
  match fragments with
  | [] => []
  | f :: rest => (so_far ++ f) :: running_texts (so_far ++ f) rest
  end.

(** A reply with white space around it: two blanks before, a blank and a
    line feed after. *)
Definition padded_lines : list string :=
  [dq "{'message':{'content':'  Hel'}}";
   dq "{'message':{'content':'lo, world \n'}}";
   done_true_line].

(** A stream that fails after two fragments. *)
Definition late_error_lines : list string :=
  [hel_line; lo_line; rate_limited_line; done_true_line].

Fixpoint ones (n : nat) : string :=
  match n with
  | O => EmptyString
  | S n' => String "1"%char (ones n')
  end.

(** An object line that holds an integer of 4301 digits. *)
Definition long_integer_line : string :=
  dq "{'message':{'content':'x'},'n':" ++ ones 4301 ++ "}".

Section Script.

(** [json.loads]: a value, [JSONDecodeError], or another exception. *)
Variable json_loads : string -> py pyval.
(** [requests.get(url, headers=..., timeout=20)] *)
Variable requests_get : string -> headers -> py response.
(** [requests.post(url, headers=..., data=json.dumps(payload), stream=True,
    timeout=300)] *)
Variable requests_post : string -> headers -> payload -> py response.

Definition raise_for_status (r : response) : py unit :=
  if (400 <=? status_code r) && (status_code r <? 600)
  then Raise (HTTPError (status_code r))
  else Ret tt.

Definition resp_json (r : response) : py pyval :=
  match json_loads (text r) with
  | Ret data => Ret data
  | Raise e => Raise e
  end.

(** *** list_models *)

(** The call [requests.get(api_url(base_url, "/api/tags"), ...)]. *)
Definition tags_request (base_url api_key : string) : py response :=
  requests_get (api_url base_url "/api/tags") (auth_headers (Some api_key)).

(** The [try] suite of [list_models].  (The cache decorator on
    [list_models] is Streamlit's and is not part of this development:
    [list_models] below is the function that it wraps.) *)
Definition fetch_models (base_url api_key : string) : py (list pyval) :=
  (resp <- tags_request base_url api_key ;;
   _ <- raise_for_status resp ;;
   data <- resp_json resp ;;
   models <- py_get data "models" (PList []) ;;
   records <- py_iter models ;;
   py_mapM (fun m => py_getitem m "name") records)%py.

Definition list_models (base_url api_key : string) : M (list pyval) :=
  try_except
    (m_lift (fetch_models base_url api_key))
    (fun e =>
       (m_do (render (StWarning base_url e)) ;;;
        m_ret default_models)%M).

(** *** stream_chat *)

(** The body of the loop over the lines: the chunk it yields, if any, and
    how the turn ends.  The chunk is yielded before [done] is looked at. *)
Definition loop_body (line : string) : option pyval * flow :=
  if negb (truthy (PStr line)) then (None, Next)
  else
    match json_loads line with
    | Raise JSONDecodeError => (None, Next)
    | Raise e => (None, Fail e)
    | Ret obj =>
        match py_in "error" obj with
        | Raise e => (None, Fail e)
        | Ret true =>
            match py_getitem obj "error" with
            | Ret err => (None, Fail (RuntimeError err))
            | Raise e => (None, Fail e)
            end
        | Ret false =>
            match (msg <- py_get obj "message" (PDict []) ;;
                   py_get msg "content" (PStr ""))%py with
            | Raise e => (None, Fail e)
            | Ret chunk =>
                (if truthy chunk then Some chunk else None,
                 match py_get obj "done" PNone with
                 | Ret done => if truthy done then Break else Next
                 | Raise e => Fail e
                 end)
            end
        end
    end.

Fixpoint read_lines (lines : list string) (at_end : option exn) : gen :=
  match lines with
  | [] =>
      match at_end with
      | Some e => Throw e
      | None => Stop
      end
  | line :: rest =>
      Pull line
        (let (chunk, how) := loop_body line in
         let after :=
           match how with
           | Next => read_lines rest at_end
           | Break => Stop
           | Fail e => Throw e
           end in
         match chunk with
         | Some c => Yield c after
         | None => after
         end)
  end.

(** The call [requests.post(api_url(base_url, "/api/chat"), ...)] with
    the payload that [stream_chat] builds. *)
Definition chat_request (base_url api_key model : string)
           (msgs : list message) (temperature : float) : py response :=
  let body :=
    {| payload_model := model;
       payload_messages := msgs;
       payload_stream := true;
       payload_temperature := temperature |} in
  requests_post (api_url base_url "/api/chat")
                (auth_headers (Some api_key)) body.

Definition stream_chat (base_url api_key model : string)
           (msgs : list message) (temperature : float) : gen :=
  match chat_request base_url api_key model msgs temperature with
  | Raise e => Throw e
  | Ret r =>
      match raise_for_status r with
      | Raise e => Throw e
      | Ret _ => read_lines (iter_lines r) (stream_error r)
      end
  end.

(** *** The assistant reply block *)

(** [for chunk in g: acc.append(chunk); placeholder.markdown("".join(acc))] *)
Fixpoint for_chunks (g : gen) (acc : list pyval) (w : session)
  : loop_end * session :=
  match g with
  | Pull _ k => for_chunks k acc w
  | Stop => (Exhausted acc, w)
  | Throw e => (GenRaised e, w)
  | Yield chunk k =>
      let acc' := app acc [chunk] in
      match py_join acc' with
      | Ret shown => for_chunks k acc' (render (PlaceholderMarkdown shown) w)
      | Raise e => (BodyRaised e, w)
      end
  end.

(** The [try / except / else] around the loop. *)
Definition assistant_reply (base_url api_key model : string)
           (temperature : float) : M unit :=
  fun w =>
    match for_chunks
            (stream_chat base_url api_key model (messages w) temperature)
            [] w with
    | (GenRaised e, w') | (BodyRaised e, w') =>
        (Ret tt, render (StError e) w')
    | (Exhausted acc, w') =>
        match py_join acc with
        | Ret joined =>
            (Ret tt,
             append_message
               {| role := "assistant"; content := strip joined |} w')
        | Raise e => (Raise e, w')
        end
    end.

(** [if prompt: ...], with [prompt] what [st.chat_input] returned. *)
Definition on_prompt (base_url api_key model : string) (temperature : float)
           (prompt : option string) : M unit :=
  match prompt with
  | Some p =>
      if truthy (PStr p) then
        (m_do (append_message {| role := "user"; content := p |}) ;;;
         m_do (render (ChatMarkdown "user" p)) ;;;
         assistant_reply base_url api_key model temperature)%M
      else m_ret tt
  | None => m_ret tt
  end.

(** *** The notions of the specification *)

(** A line that is not blank and decodes to a JSON object. *)
Definition parsed_object (line : string) : option (list (string * pyval)) :=
  if String.eqb line "" then None
  else
    match json_loads line with
    | Ret (PDict d) => Some d
    | _ => None
    end.

(** The nested message content of a line, when it is there and not empty. *)
Definition message_content (line : string) : option pyval :=
  match parsed_object line with
  | Some d =>
      match dict_lookup "message" d with
      | Some (PDict m) =>
          match dict_lookup "content" m with
          | Some c => if truthy c then Some c else None
          | None => None
          end
      | _ => None
      end
  | None => None
  end.

Fixpoint fragments_of (lines : list string) : list pyval :=
  match lines with
  | [] => []
  | line :: rest =>
      match message_content line with
      | Some c => c :: fragments_of rest
      | None => fragments_of rest
      end
  end.

(** A line whose object carries a [done] marker that counts as true. *)
Definition done_line (line : string) : bool :=
  match parsed_object line with
  | Some d =>
      match dict_lookup "done" d with
      | Some v => truthy v
      | None => false
      end
  | None => false
  end.

(** The lines up to the first [done] line, that one included. *)
Fixpoint until_done (lines : list string) : list string :=
  match lines with
  | [] => []
  | line :: rest =>
      if done_line line then [line] else line :: until_done rest
  end.

(** Every turn of the loop over [lines] goes on to the next line. *)
Definition all_continue (lines : list string) : bool :=
  forallb
    (fun line =>
       match snd (loop_body line) with
       | Next => true
       | _ => false
       end)
    lines.

(** The object of a line, when it carries none of the fields the loop
    looks at. *)
Definition unrecognised (line : string) : bool :=
  match parsed_object line with
  | Some d =>
      match dict_lookup "error" d, dict_lookup "message" d,
            dict_lookup "done" d with
      | None, None, None => true
      | _, _, _ => false
      end
  | None => false
  end.

(** A line is of a shape the loop is written for: blank, not JSON
    ([JSONDecodeError]), or decoded to an object whose [message], when
    present, is an object. *)
Definition object_shaped (line : string) : bool :=
  if String.eqb line "" then true
  else
    match json_loads line with
    | Raise JSONDecodeError => true
    | Raise _ => false
    | Ret (PDict d) =>
        match dict_lookup "message" d with
        | None | Some (PDict _) => true
        | Some _ => false
        end
    | Ret _ => false
    end.

(** The value of the [error] field of the object of a line. *)
Definition error_of (line : string) : option pyval :=
  match parsed_object line with
  | Some d => dict_lookup "error" d
  | None => None
  end.

(** A line that the loop passes over before looking at any field: blank,
    or not JSON. *)
Definition is_noise (line : string) : bool :=
  String.eqb line ""
  || match json_loads line with
     | Raise JSONDecodeError => true
     | _ => false
     end.

Definition drop_noise (lines : list string) : list string :=
  filter (fun line => negb (is_noise line)) lines.

(** The names that the comprehension of [list_models] collects from the
    decoded object [d]: nothing when [models] is missing or is an empty
    list, object or string; the [name] of each record of a list. *)
Inductive catalog_names (d : list (string * pyval)) : list pyval -> Prop :=
| NamesMissing :
    dict_lookup "models" d = None -> catalog_names d []
| NamesOfRecords (records names : list pyval) :
    dict_lookup "models" d = Some (PList records) ->
    Forall2 (fun m n => exists fields,
                 m = PDict fields /\ dict_lookup "name" fields = Some n)
            records names ->
    catalog_names d names
| NamesOfEmptyObject :
    dict_lookup "models" d = Some (PDict []) -> catalog_names d []
| NamesOfEmptyString :
    dict_lookup "models" d = Some (PStr "") -> catalog_names d [].

(** A line that carries neither an [error] field nor a [done] marker that
    counts as true. *)
Definition quiet_line (line : string) : bool :=
  match error_of line with
  | Some _ => false
  | None => negb (done_line line)
  end.

(** ** Properties *)

(** *** Strings and joins *)

Lemma rstrip_by_snoc (strip_it : ascii -> bool) (c : ascii) (s : string) :
  strip_it c = true ->
  rstrip_by strip_it (s ++ String c EmptyString) = rstrip_by strip_it s.
Proof.
  intros Hc. induction s as [|a s IH]; simpl.
  - now rewrite Hc.
  - now rewrite IH.
Qed.

Lemma append_nil_r (s : string) : s ++ "" = s.
Proof.
  induction s as [|a s IH]; simpl; [reflexivity | now rewrite IH].
Qed.

Lemma py_join_strings (parts : list pyval) (joined : string) :
  py_join parts = Ret joined ->
  exists fragments,
    parts = map PStr fragments /\ joined = String.concat "" fragments.
Proof.
  revert joined. induction parts as [|p parts IH]; intros joined H.
  - exists []. simpl in H. injection H as <-. now split.
  - simpl in H. destruct p; try discriminate.
    destruct (py_join parts) as [rest|] eqn:E; simpl in H; try discriminate.
    injection H as <-.
    destruct (IH rest eq_refl) as (fs & -> & ->).
    exists (s :: fs). split; [reflexivity|].
    destruct fs as [|f fs]; simpl.
    + now rewrite append_nil_r.
    + reflexivity.
Qed.

Lemma py_join_map_PStr (fragments : list string) :
  py_join (map PStr fragments) = Ret (String.concat "" fragments).
Proof.
  induction fragments as [|f fs IH]; [reflexivity|].
  simpl py_join. rewrite IH. simpl.
  destruct fs as [|g fs]; simpl.
  - now rewrite append_nil_r.
  - reflexivity.
Qed.

Lemma rstrip_by_ends (p : ascii -> bool) (s : string) :
  ends_in p (rstrip_by p s) = false.
Proof.
  induction s as [|c s IH]; [reflexivity|].
  simpl. destruct (rstrip_by p s) as [|k kept] eqn:E.
  - destruct (p c) eqn:Hc; simpl; [reflexivity | exact Hc].
  - exact IH.
Qed.

Lemma rstrip_by_split (p : ascii -> bool) (s : string) :
  exists stripped,
    s = rstrip_by p s ++ stripped /\ all_chars p stripped = true.
Proof.
  induction s as [|c s (t & Hs & Ht)].
  - now exists "".
  - simpl. destruct (rstrip_by p s) as [|k kept] eqn:E.
    + destruct (p c) eqn:Hc.
      * exists (String c s). split; [reflexivity|].
        simpl in Hs. subst t. simpl. now rewrite Hc, Ht.
      * exists t. simpl in *. subst t. now split.
    + exists t. split; [|exact Ht]. simpl in *. now rewrite <- Hs.
Qed.

Lemma lstrip_by_starts (p : ascii -> bool) (s : string) :
  starts_in p (lstrip_by p s) = false.
Proof.
  induction s as [|c s IH]; [reflexivity|].
  simpl. destruct (p c) eqn:Hc; [exact IH | exact Hc].
Qed.

Lemma lstrip_by_keeps_end (p q : ascii -> bool) (s : string) :
  ends_in q s = false -> ends_in q (lstrip_by p s) = false.
Proof.
  induction s as [|c s IH]; [reflexivity|].
  intros H. simpl lstrip_by. destruct (p c); [|exact H].
  apply IH. destruct s; [reflexivity | exact H].
Qed.

Lemma lstrip_by_fixed (p : ascii -> bool) (s : string) :
  starts_in p s = false -> lstrip_by p s = s.
Proof.
  destruct s as [|c s]; [reflexivity|]. simpl. now intros ->.
Qed.

Lemma rstrip_by_fixed (p : ascii -> bool) (s : string) :
  ends_in p s = false -> rstrip_by p s = s.
Proof.
  induction s as [|c s IH]; [reflexivity|].
  intros H. simpl. destruct s as [|c' s].
  - simpl in *. now rewrite H.
  - rewrite (IH H). reflexivity.
Qed.

(** [strip] leaves no white space at either end, and stripping twice is
    stripping once. *)
Lemma strip_trims_both_ends (s : string) :
  starts_in isspace (strip s) = false
  /\ ends_in isspace (strip s) = false
  /\ strip (strip s) = strip s.
Proof.
  assert (Hs : starts_in isspace (strip s) = false)
    by apply lstrip_by_starts.
  assert (He : ends_in isspace (strip s) = false)
    by (apply lstrip_by_keeps_end, rstrip_by_ends).
  repeat split; try assumption.
  unfold strip at 1. rewrite (rstrip_by_fixed _ _ He).
  now apply lstrip_by_fixed.
Qed.

Lemma string_app_assoc (a b c : string) : (a ++ b) ++ c = a ++ b ++ c.
Proof.
  induction a as [|x a IH]; simpl; [reflexivity | now rewrite IH].
Qed.

Lemma lstrip_by_split (p : ascii -> bool) (s : string) :
  exists stripped,
    s = stripped ++ lstrip_by p s /\ all_chars p stripped = true.
Proof.
  induction s as [|c s (t & Hs & Ht)].
  - now exists "".
  - simpl. destruct (p c) eqn:Hc.
    + exists (String c t). simpl. rewrite Hc, Ht. now rewrite <- Hs.
    + now exists "".
Qed.

(** What [strip] does: it takes a run of white space off each end, and
    what is left has white space at neither end. *)
Lemma strip_spec (s : string) :
  exists lead trail,
    s = lead ++ strip s ++ trail
    /\ all_chars isspace lead = true
    /\ all_chars isspace trail = true
    /\ starts_in isspace (strip s) = false
    /\ ends_in isspace (strip s) = false.
Proof.
  destruct (rstrip_by_split isspace s) as (trail & Hr & Htrail).
  destruct (lstrip_by_split isspace (rstrip_by isspace s))
    as (lead & Hl & Hlead).
  exists lead, trail. repeat split; try assumption.
  - unfold strip. rewrite <- string_app_assoc, <- Hl. exact Hr.
  - apply strip_trims_both_ends.
  - apply strip_trims_both_ends.
Qed.

(** *** One turn of the loop *)

(** When a turn does not raise, it yields the message content of its line
    and it breaks exactly on a [done] line. *)
Lemma loop_body_spec (line : string) :
  match snd (loop_body line) with
  | Fail _ => True
  | Next =>
      fst (loop_body line) = message_content line /\ done_line line = false
  | Break =>
      fst (loop_body line) = message_content line /\ done_line line = true
  end.
Proof.
  unfold loop_body, message_content, done_line, parsed_object. simpl truthy.
  destruct (String.eqb line ""); simpl; [now split|].
  destruct (json_loads line) as [obj|[]]; simpl; try exact I; try now split.
  destruct obj as [| b | z | f | s | l | d]; simpl; try exact I.
  - destruct (str_contains "error" s); simpl; exact I.
  - destruct (existsb (is_str "error") l); simpl; exact I.
  - destruct (dict_lookup "error" d) as [err|]; simpl; [exact I|].
    destruct (dict_lookup "message" d) as [msg|]; simpl.
    + destruct msg as [| b | z | f | s | l | m]; simpl; try exact I.
      destruct (dict_lookup "content" m) as [c|]; simpl;
        destruct (dict_lookup "done" d) as [dn|]; simpl;
        try destruct (truthy dn); simpl; now split.
    + destruct (dict_lookup "done" d) as [dn|]; simpl;
        try destruct (truthy dn); simpl; now split.
Qed.

(** A line whose object carries [error] raises [RuntimeError] with it. *)
Lemma loop_body_error (line : string) (d : list (string * pyval)) (err : pyval) :
  parsed_object line = Some d ->
  dict_lookup "error" d = Some err ->
  loop_body line = (None, Fail (RuntimeError err)).
Proof.
  unfold parsed_object, loop_body. simpl truthy.
  destruct (String.eqb line ""); simpl; [discriminate|].
  destruct (json_loads line) as [obj|e]; [|discriminate].
  destruct obj; try discriminate.
  intros [= ->] H. simpl. now rewrite H.
Qed.

Lemma read_lines_cons (line : string) (rest : list string) (at_end : option exn) :
  read_lines (line :: rest) at_end =
  Pull line
    (let after :=
       match snd (loop_body line) with
       | Next => read_lines rest at_end
       | Break => Stop
       | Fail e => Throw e
       end in
     match fst (loop_body line) with
     | Some c => Yield c after
     | None => after
     end).
Proof.
  simpl. now destruct (loop_body line).
Qed.

(** *** The trace of the loop over the lines *)

Lemma read_lines_completed (lines : list string) (at_end : option exn) :
  outcome (read_lines lines at_end) = Completed ->
  lines_read (read_lines lines at_end) = until_done lines
  /\ yielded (read_lines lines at_end) = fragments_of (until_done lines).
Proof.
  induction lines as [|line rest IH]; intros Hout.
  - simpl in *. destruct at_end; [discriminate | now split].
  - rewrite read_lines_cons in *. pose proof (loop_body_spec line) as Hspec.
    destruct (loop_body line) as [chunk how]. simpl fst in *. simpl snd in *.
    destruct how as [| |e].
    + destruct Hspec as [Hc Hdone].
      assert (Hrest : outcome (read_lines rest at_end) = Completed)
        by (destruct chunk; exact Hout).
      destruct (IH Hrest) as [IHr IHy].
      simpl until_done. rewrite Hdone. simpl fragments_of. rewrite <- Hc.
      destruct chunk; simpl; rewrite IHr, IHy; now split.
    + destruct Hspec as [Hc Hdone].
      simpl until_done. rewrite Hdone. simpl fragments_of. rewrite <- Hc.
      destruct chunk; simpl; now split.
    + destruct chunk; simpl in Hout; discriminate.
Qed.

(** While every turn goes on to the next line, the loop reads the lines
    one after the other and yields their message contents. *)
Lemma read_lines_app (pre rest : list string) (at_end : option exn) :
  all_continue pre = true ->
  lines_read (read_lines (app pre rest) at_end)
    = app pre (lines_read (read_lines rest at_end))
  /\ yielded (read_lines (app pre rest) at_end)
    = app (fragments_of pre) (yielded (read_lines rest at_end))
  /\ outcome (read_lines (app pre rest) at_end)
    = outcome (read_lines rest at_end).
Proof.
  induction pre as [|line pre IH]; intros Hall.
  - now repeat split.
  - simpl in Hall. apply andb_prop in Hall. destruct Hall as [Hline Hpre].
    destruct (IH Hpre) as (IHr & IHy & IHo).
    change (app (line :: pre) rest) with (line :: app pre rest).
    rewrite read_lines_cons. pose proof (loop_body_spec line) as Hspec.
    destruct (loop_body line) as [chunk how]. simpl fst in *. simpl snd in *.
    destruct how; try discriminate.
    destruct Hspec as [Hc _]. simpl fragments_of. rewrite <- Hc.
    destruct chunk; simpl; rewrite IHr, IHy, IHo; now repeat split.
Qed.

(** *** The loop that consumes the generator *)

Lemma for_chunks_messages (g : gen) (acc : list pyval) (w : session) :
  messages (snd (for_chunks g acc w)) = messages w.
Proof.
  revert acc w. induction g as [line k IH | chunk k IH | | e]; intros acc w;
    simpl; try reflexivity.
  - apply IH.
  - destruct (py_join (app acc [chunk])); [|reflexivity].
    now rewrite IH.
Qed.

Lemma for_chunks_exhausted (g : gen) (acc acc' : list pyval) (w w' : session) :
  for_chunks g acc w = (Exhausted acc', w') ->
  acc' = app acc (yielded g) /\ outcome g = Completed.
Proof.
  revert acc w. induction g as [line k IH | chunk k IH | | e]; intros acc w H;
    simpl in *.
  - eauto.
  - destruct (py_join (app acc [chunk])); [|discriminate].
    destruct (IH _ _ H) as [-> Hout]. split; [|exact Hout].
    now rewrite <- app_assoc.
  - injection H as <- _. now rewrite app_nil_r.
  - discriminate.
Qed.

Lemma for_chunks_raised (g : gen) (acc : list pyval) (w : session) (e : exn) :
  outcome g = Raised e ->
  exists e', fst (for_chunks g acc w) = GenRaised e'
             \/ fst (for_chunks g acc w) = BodyRaised e'.
Proof.
  revert acc w. induction g as [line k IH | chunk k IH | | e0]; intros acc w H;
    simpl in *.
  - now apply IH.
  - destruct (py_join (app acc [chunk])); [now apply IH|].
    eexists. right. reflexivity.
  - discriminate.
  - eexists. left. reflexivity.
Qed.

(** The accumulator of an exhausted loop joins: every chunk was a [str]. *)
Lemma for_chunks_joinable (g : gen) (acc acc' : list pyval) (w w' : session) :
  (exists joined, py_join acc = Ret joined) ->
  for_chunks g acc w = (Exhausted acc', w') ->
  exists joined, py_join acc' = Ret joined.
Proof.
  revert acc w. induction g as [line k IH | chunk k IH | | e];
    intros acc w Hacc H; simpl in H.
  - eauto.
  - destruct (py_join (app acc [chunk])) as [shown|] eqn:E; [|discriminate].
    eapply IH; [|exact H]. eauto.
  - injection H as <- _. exact Hacc.
  - discriminate.
Qed.

Lemma exhausted_loop_strings (g : gen) (acc : list pyval) (w w' : session) :
  for_chunks g [] w = (Exhausted acc, w') ->
  exists fragments : list string,
    acc = yielded g
    /\ acc = map PStr fragments
    /\ py_join acc = Ret (String.concat "" fragments)
    /\ messages w' = messages w.
Proof.
  intros Hloop.
  destruct (for_chunks_exhausted _ _ _ _ _ Hloop) as [Hacc _].
  assert (Hnil : exists joined, py_join [] = Ret joined)
    by (now exists "").
  destruct (for_chunks_joinable _ _ _ _ _ Hnil Hloop) as [joined Hjoin].
  destruct (py_join_strings _ _ Hjoin) as (fragments & Hfr & Hcat).
  pose proof (for_chunks_messages g [] w) as Hm. rewrite Hloop in Hm.
  exists fragments. subst joined. now repeat split.
Qed.

Lemma stream_chat_opened (base_url api_key model : string)
      (msgs : list message) (temperature : float) (r : response) :
  chat_request base_url api_key model msgs temperature = Ret r ->
  raise_for_status r = Ret tt ->
  stream_chat base_url api_key model msgs temperature
  = read_lines (iter_lines r) (stream_error r).
Proof.
  intros Hreq Hst. unfold stream_chat. now rewrite Hreq, Hst.
Qed.

Lemma stream_chat_completed (base_url api_key model : string)
      (msgs : list message) (temperature : float) :
  outcome (stream_chat base_url api_key model msgs temperature) = Completed ->
  exists r,
    chat_request base_url api_key model msgs temperature = Ret r
    /\ raise_for_status r = Ret tt.
Proof.
  unfold stream_chat.
  destruct (chat_request base_url api_key model msgs temperature) as [r|e];
    [|discriminate].
  destruct (raise_for_status r) as [[]|e] eqn:Hst; [|discriminate].
  intros _. now exists r.
Qed.

(** On a line of the expected shape a turn raises only for [error]. *)
Lemma loop_body_shaped (line : string) :
  object_shaped line = true ->
  loop_body line
  = match error_of line with
    | Some err => (None, Fail (RuntimeError err))
    | None => (message_content line, if done_line line then Break else Next)
    end.
Proof.
  unfold object_shaped, loop_body, error_of, message_content, done_line,
    parsed_object. simpl truthy.
  destruct (String.eqb line ""); simpl; [reflexivity|].
  destruct (json_loads line) as [obj|[]]; simpl;
    try reflexivity; try discriminate.
  destruct obj as [| b | z | f | s | l | d]; try discriminate.
  simpl. destruct (dict_lookup "error" d) as [err|]; simpl; [reflexivity|].
  destruct (dict_lookup "message" d) as [msg|]; simpl.
  - destruct msg as [| b | z | f | s | l | m]; try discriminate.
    intros _. simpl.
    destruct (dict_lookup "content" m) as [c|]; simpl;
      destruct (dict_lookup "done" d) as [dn|]; simpl;
      try destruct (truthy dn); reflexivity.
  - intros _. destruct (dict_lookup "done" d) as [dn|]; simpl;
      try destruct (truthy dn); reflexivity.
Qed.

(** The loop raises where the first turn that does not go on raises, or,
    when every turn goes on, where the connection fails. *)
Lemma read_lines_raised (lines : list string) (at_end : option exn) (e : exn) :
  outcome (read_lines lines at_end) = Raised e <->
  (exists pre line post,
      lines = app pre (line :: post)
      /\ all_continue pre = true
      /\ snd (loop_body line) = Fail e)
  \/ (all_continue lines = true /\ at_end = Some e).
Proof.
  induction lines as [|line rest IH].
  - simpl. split.
    + destruct at_end as [e0|]; [|discriminate].
      intros [= ->]. now right.
    + intros [(pre & l & post & H & _) | [_ ->]]; [|reflexivity].
      now destruct pre.
  - rewrite read_lines_cons.
    assert (Hout : forall after,
               outcome (Pull line
                          match fst (loop_body line) with
                          | Some c => Yield c after
                          | None => after
                          end) = outcome after)
      by (intros after; now destruct (fst (loop_body line))).
    cbv zeta. rewrite Hout. clear Hout.
    unfold all_continue at 2. simpl forallb. fold (all_continue rest).
    destruct (snd (loop_body line)) as [| |e0] eqn:Hhow.
    + rewrite IH. simpl andb. split.
      * intros [(pre & l & post & -> & Hpre & Hl) | H]; [left | now right].
        exists (line :: pre), l, post. repeat split; [|exact Hl].
        unfold all_continue. simpl. rewrite Hhow. exact Hpre.
      * intros [(pre & l & post & Heq & Hpre & Hl) | H]; [|now right].
        destruct pre as [|p pre]; simpl in Heq; injection Heq as <- ->.
        -- rewrite Hhow in Hl. discriminate.
        -- left. exists pre, l, post. repeat split; [|exact Hl].
           unfold all_continue in Hpre. simpl in Hpre.
           apply andb_prop in Hpre. apply Hpre.
    + simpl. split; [discriminate|].
      intros [(pre & l & post & Heq & Hpre & Hl) | [H _]]; [|discriminate].
      destruct pre as [|p pre]; simpl in Heq; injection Heq as <- ->.
      * rewrite Hhow in Hl. discriminate.
      * unfold all_continue in Hpre. simpl in Hpre. rewrite Hhow in Hpre.
        discriminate.
    + simpl. split.
      * intros [= ->]. left. exists [], line, rest. now repeat split.
      * intros [(pre & l & post & Heq & Hpre & Hl) | [H _]]; [|discriminate].
        destruct pre as [|p pre]; simpl in Heq; injection Heq as <- ->.
        -- rewrite Hhow in Hl. now injection Hl as ->.
        -- unfold all_continue in Hpre. simpl in Hpre. rewrite Hhow in Hpre.
           discriminate.
Qed.

Lemma py_mapM_raises {A B : Type} (f : A -> py B) (l : list A) (a : A) (e : exn) :
  In a l -> f a = Raise e -> exists e', py_mapM f l = Raise e'.
Proof.
  intros Hin Hf. induction l as [|x l IH]; [contradiction|].
  simpl. destruct Hin as [-> | Hin].
  - rewrite Hf. simpl. eauto.
  - destruct (f x); simpl; [|eauto].
    destruct (IH Hin) as [e' ->]. simpl. eauto.
Qed.

Lemma py_mapM_names (records names : list pyval) :
  Forall2 (fun m n => exists fields,
               m = PDict fields /\ dict_lookup "name" fields = Some n)
          records names ->
  py_mapM (fun m => py_getitem m "name") records = Ret names.
Proof.
  induction 1 as [|m n records names (fields & -> & Hname) _ IH];
    [reflexivity|].
  simpl. now rewrite Hname, IH.
Qed.

Lemma list_models_fallback (base_url api_key : string) (w : session) (e : exn) :
  fetch_models base_url api_key = Raise e ->
  list_models base_url api_key w
  = (Ret default_models, render (StWarning base_url e) w).
Proof.
  intros H. unfold list_models, try_except, m_lift. now rewrite H.
Qed.

(** *** The claims *)

(** C8. For every base address and every path, [api_url base path] and
    [api_url (base + "/") path] are the same URL: a trailing slash on the
    base address does not change the joined URL. *)
Theorem api_url_trailing_slash (base_url path : string) :
  api_url base_url path = api_url (base_url ++ "/") path.
Proof.
  unfold api_url, rstrip. f_equal. symmetry.
  now apply rstrip_by_snoc.
Qed.

(** C1. When the loop over [stream_chat] runs the generator to its end,
    the chunks it accumulated are the fragments the generator yielded, in
    the order of the yields, each once; joined, they are the
    concatenation of those fragments; and the fragments are the non-empty
    message contents of the decoded lines, in the order in which the lines
    were read (the lines up to the first [done] line). *)
Theorem stream_fragments_accumulated
        (base_url api_key model : string) (msgs : list message)
        (temperature : float) (w w' : session) (acc : list pyval) :
  for_chunks (stream_chat base_url api_key model msgs temperature) [] w
  = (Exhausted acc, w') ->
  exists (r : response) (fragments : list string),
    chat_request base_url api_key model msgs temperature = Ret r
    /\ lines_read (stream_chat base_url api_key model msgs temperature)
       = until_done (iter_lines r)
    /\ yielded (stream_chat base_url api_key model msgs temperature)
       = fragments_of (until_done (iter_lines r))
    /\ acc = yielded (stream_chat base_url api_key model msgs temperature)
    /\ acc = map PStr fragments
    /\ py_join acc = Ret (String.concat "" fragments).
Proof.
  intros Hloop.
  destruct (for_chunks_exhausted _ _ _ _ _ Hloop) as [Hacc Hout].
  simpl in Hacc.
  destruct (stream_chat_completed _ _ _ _ _ Hout) as (r & Hreq & Hst).
  pose proof (stream_chat_opened _ _ _ _ _ _ Hreq Hst) as Hgen.
  rewrite Hgen in Hout. destruct (read_lines_completed _ _ Hout) as [Hr Hy].
  destruct (exhausted_loop_strings _ _ _ _ Hloop)
    as (fragments & _ & Hfr & Hjoin & _).
  exists r, fragments. rewrite Hgen at 1 2.
  repeat split; assumption.
Qed.

(** C2. When the loop gets past the lines [pre] and the next line decodes
    to an object with an [error] field, [stream_chat] raises
    [RuntimeError] carrying the value of that field; that line is the last
    one it reads, and what it yielded is what the lines of [pre] yield. *)
Theorem error_line_aborts_stream
        (base_url api_key model : string) (msgs : list message)
        (temperature : float) (r : response)
        (pre post : list string) (line : string)
        (d : list (string * pyval)) (err : pyval) :
  chat_request base_url api_key model msgs temperature = Ret r ->
  raise_for_status r = Ret tt ->
  iter_lines r = app pre (line :: post) ->
  all_continue pre = true ->
  parsed_object line = Some d ->
  dict_lookup "error" d = Some err ->
  outcome (stream_chat base_url api_key model msgs temperature)
  = Raised (RuntimeError err)
  /\ lines_read (stream_chat base_url api_key model msgs temperature)
     = app pre [line]
  /\ yielded (stream_chat base_url api_key model msgs temperature)
     = fragments_of pre
  /\ yielded (stream_chat base_url api_key model msgs temperature)
     = yielded (read_lines pre None).
Proof.
  intros Hreq Hst Hlines Hpre Hobj Herr.
  rewrite (stream_chat_opened _ _ _ _ _ _ Hreq Hst), Hlines.
  destruct (read_lines_app pre (line :: post) (stream_error r) Hpre)
    as (Hr & Hy & Ho).
  destruct (read_lines_app pre [] None Hpre) as (_ & Hy0 & _).
  rewrite app_nil_r in Hy0. rewrite Hr, Hy, Ho, Hy0.
  rewrite read_lines_cons, (loop_body_error _ _ _ Hobj Herr). simpl.
  now rewrite !app_nil_r.
Qed.

(** C3. When [stream_chat] raises (the request cannot be opened, the
    status is refused, or a line or the connection fails mid-stream), the
    reply block handles the exception and leaves the transcript as it was
    when the stream was started: no assistant message is appended and the
    partial text is not kept. *)
Theorem failed_stream_commits_nothing
        (base_url api_key model : string) (temperature : float)
        (w : session) (e : exn) :
  outcome (stream_chat base_url api_key model (messages w) temperature)
  = Raised e ->
  fst (assistant_reply base_url api_key model temperature w) = Ret tt
  /\ messages (snd (assistant_reply base_url api_key model temperature w))
     = messages w.
Proof.
  intros Hout. unfold assistant_reply.
  pose proof (for_chunks_messages
                (stream_chat base_url api_key model (messages w) temperature)
                [] w) as Hmsgs.
  destruct (for_chunks_raised _ [] w _ Hout) as [e' [H|H]];
    destruct (for_chunks _ [] w) as [how w1]; simpl in H, Hmsgs; subst how;
    simpl; now split.
Qed.

(** C10. When the loop runs [stream_chat] to its end, the reply block
    appends one message to the transcript: an assistant message whose
    content is the concatenation of the yielded fragments with the white
    space taken off both ends.  The content is what [strip] gives; the
    concatenation is the content between a run of white space before it and
    one after it, and the content itself starts and ends with no white
    space.  With no fragment yielded, the appended content is empty. *)
Theorem completed_stream_commits_once
        (base_url api_key model : string) (temperature : float)
        (w w' : session) (acc : list pyval) :
  for_chunks (stream_chat base_url api_key model (messages w) temperature)
             [] w
  = (Exhausted acc, w') ->
  exists (fragments : list string) (reply lead trail : string),
    yielded (stream_chat base_url api_key model (messages w) temperature)
    = map PStr fragments
    /\ fst (assistant_reply base_url api_key model temperature w) = Ret tt
    /\ messages (snd (assistant_reply base_url api_key model temperature w))
       = app (messages w) [{| role := "assistant"; content := reply |}]
    /\ reply = strip (String.concat "" fragments)
    /\ String.concat "" fragments = lead ++ reply ++ trail
    /\ all_chars isspace lead = true
    /\ all_chars isspace trail = true
    /\ starts_in isspace reply = false
    /\ ends_in isspace reply = false
    /\ (fragments = [] -> reply = "").
Proof.
  intros Hloop.
  destruct (exhausted_loop_strings _ _ _ _ Hloop)
    as (fragments & Hy & Hfr & Hjoin & Hm).
  destruct (strip_spec (String.concat "" fragments))
    as (lead & trail & Hsplit & Hlead & Htrail & Hs & He).
  exists fragments, (strip (String.concat "" fragments)), lead, trail.
  unfold assistant_reply. rewrite Hloop, Hjoin. simpl. rewrite Hm.
  repeat split; try assumption.
  - now rewrite <- Hy.
  - now intros ->.
Qed.

(** C7. For a successful response whose body decodes to an object with a
    [models] list of records that each have a [name], [list_models]
    returns the names as received, in the same order and each as often as
    it occurs, and reports nothing. *)
Theorem list_models_returns_names
        (base_url api_key : string) (w : session) (r : response)
        (d : list (string * pyval)) (records names : list pyval) :
  tags_request base_url api_key = Ret r ->
  200 <= status_code r < 300 ->
  json_loads (text r) = Ret (PDict d) ->
  dict_lookup "models" d = Some (PList records) ->
  Forall2 (fun m n => exists fields,
               m = PDict fields /\ dict_lookup "name" fields = Some n)
          records names ->
  list_models base_url api_key w = (Ret names, w).
Proof.
  intros Hreq Hstatus Hjson Hmodels Hnames.
  unfold list_models, try_except, m_lift, fetch_models.
  rewrite Hreq. unfold raise_for_status, resp_json. simpl.
  replace ((400 <=? status_code r) && (status_code r <? 600)) with false
    by (symmetry; apply andb_false_iff; left; apply Z.leb_gt; lia).
  simpl. rewrite Hjson. simpl. rewrite Hmodels. simpl.
  now rewrite (py_mapM_names _ _ Hnames).
Qed.

(** C4, as the code has it. [list_models] never raises.  When the request
    fails, the status is an error status (4xx or 5xx), the body is not
    JSON, or a record of the [models] list has no [name], it reports a
    warning and returns the default list, which is not empty.  An object
    with no [models] field is not a failure: the result is the empty list
    and nothing is reported. *)
Theorem list_models_falls_back
        (base_url api_key : string) (w : session) :
  (exists names w', list_models base_url api_key w = (Ret names, w'))
  /\ ((exists e, tags_request base_url api_key = Raise e)
      \/ (exists r, tags_request base_url api_key = Ret r
                    /\ 400 <= status_code r < 600)
      \/ (exists r e, tags_request base_url api_key = Ret r
                      /\ json_loads (text r) = Raise e)
      \/ (exists r d records fields,
             tags_request base_url api_key = Ret r
             /\ json_loads (text r) = Ret (PDict d)
             /\ dict_lookup "models" d = Some (PList records)
             /\ In (PDict fields) records
             /\ dict_lookup "name" fields = None) ->
      exists e,
        list_models base_url api_key w
        = (Ret default_models, render (StWarning base_url e) w)
        /\ default_models
           = [PStr "llama3.1"; PStr "llama3"; PStr "qwen2.5"; PStr "phi4"])
  /\ (forall r d,
        tags_request base_url api_key = Ret r ->
        ~ 400 <= status_code r < 600 ->
        json_loads (text r) = Ret (PDict d) ->
        dict_lookup "models" d = None ->
        list_models base_url api_key w = (Ret [], w)).
Proof.
  split; [|split].
  - unfold list_models, try_except, m_lift, m_bind, m_do, m_ret.
    destruct (fetch_models base_url api_key); eauto.
  - intros Hfail.
    assert (Hraise : exists e, fetch_models base_url api_key = Raise e).
    { unfold fetch_models.
      destruct Hfail as [(e & ->) | [(r & -> & Hst) | [(r & e & -> & Hjson)
                        | (r & d & records & fields
                           & -> & Hjson & Hm & Hin & Hn)]]];
        simpl.
      - eauto.
      - unfold raise_for_status.
        replace ((400 <=? status_code r) && (status_code r <? 600)) with true
          by (symmetry; apply andb_true_iff; split;
              [apply Z.leb_le | apply Z.ltb_lt]; lia).
        simpl. eauto.
      - destruct (raise_for_status r); simpl; [|eauto].
        unfold resp_json. rewrite Hjson. simpl. eauto.
      - destruct (raise_for_status r); simpl; [|eauto].
        unfold resp_json. rewrite Hjson. simpl. rewrite Hm. simpl.
        apply (py_mapM_raises _ _ (PDict fields) (KeyError "name") Hin).
        simpl. now rewrite Hn. }
    destruct Hraise as [e He]. exists e. split; [|reflexivity].
    now apply list_models_fallback.
  - intros r d Hreq Hst Hjson Hm.
    unfold list_models, try_except, m_lift, fetch_models.
    rewrite Hreq. unfold raise_for_status, resp_json. simpl.
    replace ((400 <=? status_code r) && (status_code r <? 600)) with false.
    + simpl. rewrite Hjson. simpl. now rewrite Hm.
    + symmetry. apply andb_false_iff.
      destruct (Z.leb_spec 400 (status_code r)); [right | now left].
      apply Z.ltb_ge. lia.
Qed.

(** C6, as the code has it. When the loop gets past the lines [pre] and
    the next line decodes to an object that has no [error] field, a
    [message] that is absent or an object, and a [done] marker that counts
    as true, [stream_chat] returns: that line is the last one it reads,
    and the fragments are those of [pre] and of that line, whatever
    follows it in the input. *)
Theorem done_line_stops_stream
        (base_url api_key model : string) (msgs : list message)
        (temperature : float) (r : response)
        (pre post : list string) (line : string)
        (d : list (string * pyval)) (marker : pyval) :
  chat_request base_url api_key model msgs temperature = Ret r ->
  raise_for_status r = Ret tt ->
  iter_lines r = app pre (line :: post) ->
  all_continue pre = true ->
  parsed_object line = Some d ->
  dict_lookup "error" d = None ->
  object_shaped line = true ->
  dict_lookup "done" d = Some marker ->
  truthy marker = true ->
  outcome (stream_chat base_url api_key model msgs temperature) = Completed
  /\ lines_read (stream_chat base_url api_key model msgs temperature)
     = app pre [line]
  /\ yielded (stream_chat base_url api_key model msgs temperature)
     = fragments_of (app pre [line]).
Proof.
  intros Hreq Hst Hlines Hpre Hobj Herr Hshape Hdone Hmark.
  rewrite (stream_chat_opened _ _ _ _ _ _ Hreq Hst), Hlines.
  destruct (read_lines_app pre (line :: post) (stream_error r) Hpre)
    as (Hr & Hy & Ho).
  rewrite Hr, Hy, Ho, read_lines_cons, (loop_body_shaped _ Hshape).
  assert (Hfrag : fragments_of (app pre [line])
                  = app (fragments_of pre) (fragments_of [line])).
  { clear. induction pre as [|p pre IH]; [reflexivity|].
    simpl. destruct (message_content p); simpl; now rewrite IH. }
  rewrite Hfrag. unfold error_of, done_line. rewrite Hobj, Herr, Hdone, Hmark.
  simpl. destruct (message_content line); now repeat split.
Qed.

(** When [stream_chat] raises, on a stream of lines of the expected
    shape. *)
Lemma stream_chat_raises_when
      (base_url api_key model : string) (msgs : list message)
      (temperature : float) (e : exn) :
  (forall r, chat_request base_url api_key model msgs temperature = Ret r ->
             forallb object_shaped (iter_lines r) = true) ->
  (outcome (stream_chat base_url api_key model msgs temperature) = Raised e
   <->
   chat_request base_url api_key model msgs temperature = Raise e
   \/ (exists r,
         chat_request base_url api_key model msgs temperature = Ret r
         /\ 400 <= status_code r < 600
         /\ e = HTTPError (status_code r))
   \/ (exists r pre line post d err,
         chat_request base_url api_key model msgs temperature = Ret r
         /\ ~ 400 <= status_code r < 600
         /\ iter_lines r = app pre (line :: post)
         /\ all_continue pre = true
         /\ parsed_object line = Some d
         /\ dict_lookup "error" d = Some err
         /\ e = RuntimeError err)
   \/ (exists r,
         chat_request base_url api_key model msgs temperature = Ret r
         /\ ~ 400 <= status_code r < 600
         /\ all_continue (iter_lines r) = true
         /\ stream_error r = Some e)).
Proof.
  intros Hshape.
  unfold stream_chat.
  destruct (chat_request base_url api_key model msgs temperature)
    as [r|e0] eqn:Hreq.
  + specialize (Hshape r eq_refl). unfold raise_for_status.
    destruct ((400 <=? status_code r) && (status_code r <? 600)) eqn:Hst.
    * apply andb_true_iff in Hst. destruct Hst as [H1 H2].
      apply Z.leb_le in H1. apply Z.ltb_lt in H2. simpl. split.
      -- intros [= <-]. right. left. exists r. repeat split; assumption.
      -- intros [H | [(r' & [= <-] & _ & ->) | [H | H]]];
           [discriminate | reflexivity | | ].
         ++ destruct H as (r' & ? & ? & ? & ? & ? & [= <-] & Hn & _).
            exfalso. apply Hn. now split.
         ++ destruct H as (r' & [= <-] & Hn & _).
            exfalso. apply Hn. now split.
    * assert (Hok : ~ 400 <= status_code r < 600).
      { intros [H1 H2]. apply Z.leb_le in H1. apply Z.ltb_lt in H2.
        rewrite H1, H2 in Hst. discriminate. }
      rewrite read_lines_raised. split.
      -- intros [(pre & line & post & Hlines & Hpre & Hfail) | [Hall Hend]].
         ++ right. right. left.
            assert (Hl : object_shaped line = true).
            { rewrite Hlines, forallb_app in Hshape.
              apply andb_prop in Hshape. destruct Hshape as [_ Hs].
              simpl in Hs. apply andb_prop in Hs. apply Hs. }
            rewrite (loop_body_shaped _ Hl) in Hfail.
            unfold error_of in Hfail.
            destruct (parsed_object line) as [d|] eqn:Hobj.
            ** destruct (dict_lookup "error" d) as [err|] eqn:Herr.
               --- simpl in Hfail. injection Hfail as <-.
                   exists r, pre, line, post, d, err. now repeat split.
               --- simpl in Hfail. destruct (done_line line); discriminate.
            ** simpl in Hfail. destruct (done_line line); discriminate.
         ++ right. right. right. exists r. now repeat split.
      -- intros [H | [(r' & [= <-] & Hbad & _) | [H | H]]];
           [discriminate | contradiction | | ].
         ++ destruct H as (r' & pre & line & post & d & err & [= <-]
                           & _ & Hlines & Hpre & Hobj & Herr & ->).
            left. exists pre, line, post. repeat split; try assumption.
            now rewrite (loop_body_error _ _ _ Hobj Herr).
         ++ destruct H as (r' & [= <-] & _ & Hall & Hend). now right.
  + simpl. split.
    * intros [= <-]. now left.
    * intros [[= <-] | [(r & H & _) | [(r & ? & ? & ? & ? & ? & H & _)
             | (r & H & _)]]]; try discriminate. reflexivity.
Qed.

Lemma loop_body_skips (line : string) :
  line = ""
  \/ json_loads line = Raise JSONDecodeError
  \/ unrecognised line = true ->
  loop_body line = (None, Next).
Proof.
  intros Hline. unfold loop_body. simpl truthy.
  destruct Hline as [-> | [Hjson | Hun]]; [reflexivity | | ].
  + rewrite Hjson. now destruct (negb (negb (String.eqb line ""))).
  + unfold unrecognised, parsed_object in Hun.
    destruct (String.eqb line ""); simpl; [reflexivity|].
    destruct (json_loads line) as [obj|e0]; [|discriminate].
    destruct obj as [| b | z | f | s | l | d]; try discriminate.
    simpl. destruct (dict_lookup "error" d); [discriminate|].
    destruct (dict_lookup "message" d); [discriminate|].
    destruct (dict_lookup "done" d); [discriminate|].
    reflexivity.
Qed.

(** A line that the loop passes over can be taken out of the stream. *)
Lemma read_lines_skip (pre post : list string) (line : string)
      (at_end : option exn) :
  loop_body line = (None, Next) ->
  yielded (read_lines (app pre (line :: post)) at_end)
  = yielded (read_lines (app pre post) at_end)
  /\ outcome (read_lines (app pre (line :: post)) at_end)
     = outcome (read_lines (app pre post) at_end).
Proof.
  intros Hline. induction pre as [|p pre [IHy IHo]].
  - simpl app. rewrite (read_lines_cons line post), Hline. now split.
  - change (app (p :: pre) (line :: post)) with (p :: app pre (line :: post)).
    change (app (p :: pre) post) with (p :: app pre post).
    rewrite !read_lines_cons. cbv zeta.
    destruct (snd (loop_body p)), (fst (loop_body p)); simpl;
      rewrite ?IHy, ?IHo; now split.
Qed.

Lemma loop_body_quiet (line : string) :
  object_shaped line = true ->
  match snd (loop_body line) with
  | Next => true
  | _ => false
  end = quiet_line line.
Proof.
  intros Hshape. rewrite (loop_body_shaped _ Hshape). unfold quiet_line.
  destruct (error_of line); [reflexivity|].
  now destruct (done_line line).
Qed.

Lemma all_continue_quiet (lines : list string) :
  forallb object_shaped lines = true ->
  all_continue lines = forallb quiet_line lines.
Proof.
  unfold all_continue. induction lines as [|line rest IH]; [reflexivity|].
  simpl. intros H. apply andb_prop in H. destruct H as [Hl Hrest].
  now rewrite (loop_body_quiet _ Hl), (IH Hrest).
Qed.

(** C5, as the code has it. On a stream each of whose lines is blank, is
    refused by [json.loads] with [JSONDecodeError], or is decoded to an
    object whose [message] is absent or an object, [stream_chat] raises
    [e] exactly when: the request raised [e]; or the status is an error
    status (4xx or 5xx) and [e] is the HTTP error; or a line carries an
    [error] field, no line before it carries [error] or a true [done], and
    [e] is the runtime failure with that field; or no line carries [error]
    or a true [done] and the connection then fails with [e].  A request
    that raises and an error status fail before a line is read or a fragment
    yielded.  A line that is blank, refused with [JSONDecodeError], or an
    object with none of the fields [error], [message], [done] is skipped:
    nothing is yielded, the loop goes on to the next line, and the stream
    yields and ends as it would without that line. *)
Theorem stream_chat_failure_causes
        (base_url api_key model : string) (msgs : list message)
        (temperature : float) (e : exn) :
  (forall r, chat_request base_url api_key model msgs temperature = Ret r ->
             forallb object_shaped (iter_lines r) = true) ->
  (outcome (stream_chat base_url api_key model msgs temperature) = Raised e
   <->
   chat_request base_url api_key model msgs temperature = Raise e
   \/ (exists r,
         chat_request base_url api_key model msgs temperature = Ret r
         /\ 400 <= status_code r < 600
         /\ e = HTTPError (status_code r))
   \/ (exists r pre line post d err,
         chat_request base_url api_key model msgs temperature = Ret r
         /\ ~ 400 <= status_code r < 600
         /\ iter_lines r = app pre (line :: post)
         /\ forallb quiet_line pre = true
         /\ parsed_object line = Some d
         /\ dict_lookup "error" d = Some err
         /\ e = RuntimeError err)
   \/ (exists r,
         chat_request base_url api_key model msgs temperature = Ret r
         /\ ~ 400 <= status_code r < 600
         /\ forallb quiet_line (iter_lines r) = true
         /\ stream_error r = Some e))
  /\ (forall e',
        chat_request base_url api_key model msgs temperature = Raise e' ->
        stream_chat base_url api_key model msgs temperature = Throw e')
  /\ (forall r,
        chat_request base_url api_key model msgs temperature = Ret r ->
        400 <= status_code r < 600 ->
        stream_chat base_url api_key model msgs temperature
        = Throw (HTTPError (status_code r)))
  /\ (forall line,
        line = ""
        \/ json_loads line = Raise JSONDecodeError
        \/ unrecognised line = true ->
        loop_body line = (None, Next)
        /\ forall pre post at_end,
            yielded (read_lines (app pre (line :: post)) at_end)
            = yielded (read_lines (app pre post) at_end)
            /\ outcome (read_lines (app pre (line :: post)) at_end)
               = outcome (read_lines (app pre post) at_end)).
Proof.
  intros Hshape. split; [|split; [|split]].
  - rewrite (stream_chat_raises_when _ _ _ _ _ _ Hshape). split.
    + intros [H | [H | [H | H]]]; [now left | now right; left | | ].
      * destruct H as (r & pre & line & post & d & err
                       & Hreq & Hst & Hlines & Hpre & Hrest).
        right. right. left. exists r, pre, line, post, d, err.
        repeat split; try assumption; try apply Hrest.
        rewrite <- all_continue_quiet; [exact Hpre|].
        specialize (Hshape r Hreq). rewrite Hlines, forallb_app in Hshape.
        apply andb_prop in Hshape. apply Hshape.
      * destruct H as (r & Hreq & Hst & Hall & Hend).
        right. right. right. exists r. repeat split; try assumption.
        now rewrite <- all_continue_quiet; [|apply Hshape].
    + intros [H | [H | [H | H]]]; [now left | now right; left | | ].
      * destruct H as (r & pre & line & post & d & err
                       & Hreq & Hst & Hlines & Hpre & Hrest).
        right. right. left. exists r, pre, line, post, d, err.
        repeat split; try assumption; try apply Hrest.
        rewrite all_continue_quiet; [exact Hpre|].
        specialize (Hshape r Hreq). rewrite Hlines, forallb_app in Hshape.
        apply andb_prop in Hshape. apply Hshape.
      * destruct H as (r & Hreq & Hst & Hall & Hend).
        right. right. right. exists r. repeat split; try assumption.
        now rewrite all_continue_quiet; [|apply Hshape].
  - intros e' Hreq. unfold stream_chat. now rewrite Hreq.
  - intros r Hreq [H1 H2]. unfold stream_chat, raise_for_status.
    rewrite Hreq. apply Z.leb_le in H1. apply Z.ltb_lt in H2.
    now rewrite H1, H2.
  - intros line Hline. pose proof (loop_body_skips line Hline) as Hskip.
    split; [exact Hskip|]. intros pre post at_end.
    now apply read_lines_skip.
Qed.

(** *** Further properties of the script *)

(** **** Transport *)

(** X1. The URL that [api_url] builds is the base address without its
    trailing slashes, followed by the path: the base address splits into a
    stem that does not end in a slash and a run of slashes, and the URL is
    the stem followed by the path. *)
Theorem api_url_drops_trailing_slashes (base_url path : string) :
  exists stem slashes,
    base_url = stem ++ slashes
    /\ all_chars is_slash slashes = true
    /\ ends_in is_slash stem = false
    /\ api_url base_url path = stem ++ path.
Proof.
  destruct (rstrip_by_split is_slash base_url) as (slashes & Hsplit & Hall).
  exists (rstrip_by is_slash base_url), slashes.
  repeat split; try assumption.
  apply rstrip_by_ends.
Qed.

(** X2. The headers always declare JSON content, carry the bearer
    authorization exactly when the key is given and not empty, and hold
    nothing else. *)
Theorem auth_headers_fields (api_key : option string) :
  header_get "Content-Type" (auth_headers api_key) = Some "application/json"
  /\ header_get "Authorization" (auth_headers api_key)
     = match api_key with
       | Some key => if String.eqb key "" then None else Some ("Bearer " ++ key)
       | None => None
       end
  /\ forall name,
      name <> "Content-Type" -> name <> "Authorization" ->
      header_get name (auth_headers api_key) = None.
Proof.
  unfold auth_headers. destruct api_key as [key|]; simpl.
  - destruct (String.eqb key ""); simpl; repeat split; try reflexivity;
      intros name H1 H2;
      apply String.eqb_neq in H1; apply String.eqb_neq in H2;
      now rewrite ?H1, ?H2.
  - repeat split. intros name H1 _. apply String.eqb_neq in H1.
    now rewrite H1.
Qed.

(** **** The generator on any stream *)

(** A turn that yields a chunk yields the message content of its line,
    which is not empty, and does not raise. *)
Lemma loop_body_chunk (line : string) (c : pyval) :
  fst (loop_body line) = Some c ->
  truthy c = true
  /\ message_content line = Some c
  /\ forall e, snd (loop_body line) <> Fail e.
Proof.
  unfold loop_body, message_content, parsed_object. simpl truthy.
  destruct (String.eqb line ""); simpl; [discriminate|].
  destruct (json_loads line) as [obj|[]]; simpl; try discriminate.
  destruct obj as [| b | z | f | s | l | d]; simpl; try discriminate.
  - destruct (str_contains "error" s); simpl; discriminate.
  - destruct (existsb (is_str "error") l); simpl; discriminate.
  - destruct (dict_lookup "error" d) as [err|]; simpl; [discriminate|].
    destruct (dict_lookup "message" d) as [msg|]; simpl; [|discriminate].
    destruct msg as [| b | z | f | s | l | m]; simpl; try discriminate.
    destruct (dict_lookup "content" m) as [c0|]; simpl; [|discriminate].
    destruct (truthy c0) eqn:Hc; [|discriminate].
    intros [= <-]. repeat split; [exact Hc|].
    intros e. destruct (dict_lookup "done" d) as [dn|]; simpl;
      try destruct (truthy dn); discriminate.
Qed.


Lemma fragments_of_app (pre post : list string) :
  fragments_of (app pre post) = app (fragments_of pre) (fragments_of post).
Proof.
  induction pre as [|p pre IH]; [reflexivity|].
  simpl. destruct (message_content p); simpl; now rewrite IH.
Qed.

Lemma read_lines_prefix (lines : list string) (at_end : option exn) :
  exists unread,
    lines = app (lines_read (read_lines lines at_end)) unread.
Proof.
  induction lines as [|line rest [unread IH]].
  - exists []. simpl. now destruct at_end.
  - rewrite read_lines_cons. cbv zeta.
    destruct (snd (loop_body line)).
    + exists unread. destruct (fst (loop_body line)); simpl; now rewrite <- IH.
    + exists rest. now destruct (fst (loop_body line)).
    + exists rest. now destruct (fst (loop_body line)).
Qed.

Lemma read_lines_yields (lines : list string) (at_end : option exn) :
  Forall (fun c => truthy c = true) (yielded (read_lines lines at_end))
  /\ (length (yielded (read_lines lines at_end))
      <= length (lines_read (read_lines lines at_end)))%nat.
Proof.
  induction lines as [|line rest [IHt IHl]].
  - simpl. destruct at_end; simpl; split; (constructor || lia).
  - rewrite read_lines_cons. cbv zeta.
    destruct (fst (loop_body line)) as [c|] eqn:Hc.
    + destruct (loop_body_chunk _ _ Hc) as (Ht & _ & _).
      destruct (snd (loop_body line)); simpl; split;
        try (constructor; [exact Ht | assumption || constructor]); lia.
    + destruct (snd (loop_body line)); simpl; split;
        try assumption; try constructor; lia.
Qed.


Lemma loop_body_noise (line : string) :
  is_noise line = true -> loop_body line = (None, Next).
Proof.
  unfold is_noise, loop_body. simpl truthy.
  destruct (String.eqb line ""); simpl; [reflexivity|].
  now destruct (json_loads line) as [obj|[]].
Qed.

(** X3. Whatever the server answers, the lines that [stream_chat] reads
    are the first lines of the response, in their order: it never skips
    ahead.  It reads no line and yields nothing when the request raises,
    and none when the status is an error status (4xx or 5xx), where it
    raises the HTTP error at once. *)
Theorem stream_chat_reads_a_prefix
        (base_url api_key model : string) (msgs : list message)
        (temperature : float) :
  match chat_request base_url api_key model msgs temperature with
  | Ret r =>
      (exists unread,
          iter_lines r
          = app (lines_read
                   (stream_chat base_url api_key model msgs temperature))
                unread)
      /\ (400 <= status_code r < 600 ->
          lines_read (stream_chat base_url api_key model msgs temperature) = []
          /\ yielded (stream_chat base_url api_key model msgs temperature) = []
          /\ outcome (stream_chat base_url api_key model msgs temperature)
             = Raised (HTTPError (status_code r)))
  | Raise e =>
      lines_read (stream_chat base_url api_key model msgs temperature) = []
      /\ yielded (stream_chat base_url api_key model msgs temperature) = []
      /\ outcome (stream_chat base_url api_key model msgs temperature)
         = Raised e
  end.
Proof.
  unfold stream_chat.
  destruct (chat_request base_url api_key model msgs temperature) as [r|e];
    [|now repeat split].
  unfold raise_for_status.
  destruct ((400 <=? status_code r) && (status_code r <? 600)) eqn:Hst.
  - split; [now exists (iter_lines r) | now repeat split].
  - split; [apply read_lines_prefix|].
    intros [H1 H2]. apply Z.leb_le in H1. apply Z.ltb_lt in H2.
    rewrite H1, H2 in Hst. discriminate.
Qed.

(** X4. Whatever the server answers, every fragment that [stream_chat]
    yields is a non-empty value, and it yields at most one fragment for
    each line it reads. *)
Theorem stream_chat_yields_nonempty
        (base_url api_key model : string) (msgs : list message)
        (temperature : float) :
  Forall (fun c => truthy c = true)
         (yielded (stream_chat base_url api_key model msgs temperature))
  /\ (length (yielded (stream_chat base_url api_key model msgs temperature))
      <= length (lines_read
                   (stream_chat base_url api_key model msgs temperature)))%nat.
Proof.
  unfold stream_chat.
  destruct (chat_request base_url api_key model msgs temperature) as [r|e];
    [|now split; [constructor | simpl; lia]].
  destruct (raise_for_status r).
  - apply read_lines_yields.
  - split; [constructor | simpl; lia].
Qed.


(** X6. Blank lines and lines that are not JSON do not count: the loop
    over a stream yields the same fragments and ends the same way as the
    loop over the stream without those lines. *)
Theorem noise_lines_change_nothing
        (lines : list string) (at_end : option exn) :
  yielded (read_lines (drop_noise lines) at_end)
  = yielded (read_lines lines at_end)
  /\ outcome (read_lines (drop_noise lines) at_end)
     = outcome (read_lines lines at_end).
Proof.
  induction lines as [|line rest [IHy IHo]]; [now split|].
  unfold drop_noise in *. simpl filter.
  destruct (is_noise line) eqn:Hn; simpl negb; cbv iota.
  - rewrite (read_lines_cons line rest), (loop_body_noise _ Hn). simpl.
    now split.
  - rewrite !read_lines_cons. cbv zeta.
    destruct (snd (loop_body line)), (fst (loop_body line)); simpl;
      rewrite ?IHy, ?IHo; now split.
Qed.

(** X7. A stream needs no [done] marker: when every line lets the loop go
    on and the connection does not fail, [stream_chat] returns at the end
    of the input, having read every line and yielded the message contents
    of all of them. *)
Theorem stream_without_done_completes
        (base_url api_key model : string) (msgs : list message)
        (temperature : float) (r : response) :
  chat_request base_url api_key model msgs temperature = Ret r ->
  raise_for_status r = Ret tt ->
  all_continue (iter_lines r) = true ->
  stream_error r = None ->
  outcome (stream_chat base_url api_key model msgs temperature) = Completed
  /\ lines_read (stream_chat base_url api_key model msgs temperature)
     = iter_lines r
  /\ yielded (stream_chat base_url api_key model msgs temperature)
     = fragments_of (iter_lines r).
Proof.
  intros Hreq Hst Hall Hend.
  rewrite (stream_chat_opened _ _ _ _ _ _ Hreq Hst), Hend.
  destruct (read_lines_app (iter_lines r) [] None Hall) as (Hr & Hy & Ho).
  rewrite app_nil_r in *. simpl in *. rewrite app_nil_r in *.
  now repeat split.
Qed.

(** **** The reply block on any stream *)

Lemma all_str_app (a b : list pyval) :
  all_str (app a b) = all_str a && all_str b.
Proof.
  induction a as [|x a IH]; [reflexivity|].
  destruct x; simpl; try reflexivity. exact IH.
Qed.

Lemma py_join_all_str (parts : list pyval) :
  all_str parts = true -> py_join parts = Ret (joined_text parts).
Proof.
  unfold joined_text. induction parts as [|x parts IH]; [reflexivity|].
  destruct x; simpl; try discriminate.
  intros H. now rewrite (IH H).
Qed.

Lemma py_join_not_all_str (parts : list pyval) :
  all_str parts = false -> py_join parts = Raise TypeError.
Proof.
  induction parts as [|x parts IH]; [discriminate|].
  destruct x; simpl; try reflexivity.
  intros H. now rewrite (IH H).
Qed.

(** How the loop ends, from the trace of the generator alone. *)
Lemma for_chunks_cases (g : gen) (acc : list pyval) (w : session) :
  all_str acc = true ->
  match fst (for_chunks g acc w) with
  | Exhausted acc' =>
      outcome g = Completed /\ all_str (yielded g) = true
      /\ acc' = app acc (yielded g)
  | GenRaised e => outcome g = Raised e /\ all_str (yielded g) = true
  | BodyRaised e => e = TypeError /\ all_str (yielded g) = false
  end.
Proof.
  revert acc w. induction g as [line k IH | chunk k IH | | e];
    intros acc w Hacc; simpl.
  - now apply IH.
  - assert (Hc : all_str (app acc [chunk]) = all_str [chunk])
      by (now rewrite all_str_app, Hacc).
    destruct chunk; simpl in Hc;
      try (rewrite (py_join_not_all_str _ Hc); simpl; now split).
    rewrite (py_join_all_str _ Hc).
    specialize (IH (app acc [PStr s])
                   (render (PlaceholderMarkdown
                              (joined_text (app acc [PStr s]))) w) Hc).
    destruct (fst (for_chunks k _ _)); try assumption.
    destruct IH as (Ho & Hs & ->). repeat split; try assumption.
    now rewrite <- app_assoc.
  - repeat split. now rewrite app_nil_r.
  - now split.
Qed.

(** The loop only adds renderings, on top of those that were there; when
    it ends by exhaustion after a fragment, the newest one shows the whole
    accumulated text. *)
Lemma for_chunks_shows (g : gen) (acc : list pyval) (w : session) :
  all_str acc = true ->
  (exists shown, ui (snd (for_chunks g acc w)) = app shown (ui w))
  /\ forall acc',
      fst (for_chunks g acc w) = Exhausted acc' ->
      yielded g <> [] ->
      exists earlier,
        ui (snd (for_chunks g acc w))
        = PlaceholderMarkdown (joined_text acc') :: earlier.
Proof.
  revert acc w. induction g as [line k IH | chunk k IH | | e];
    intros acc w Hacc; simpl.
  - now apply IH.
  - assert (Hc : all_str (app acc [chunk]) = all_str [chunk])
      by (now rewrite all_str_app, Hacc).
    destruct chunk; simpl in Hc;
      try (rewrite (py_join_not_all_str _ Hc); simpl;
           split; [now exists [] | discriminate]).
    rewrite (py_join_all_str _ Hc).
    set (w1 := render (PlaceholderMarkdown (joined_text (app acc [PStr s]))) w).
    destruct (IH (app acc [PStr s]) w1 Hc) as [[shown Hshown] Hlast].
    split.
    + exists (app shown [PlaceholderMarkdown (joined_text (app acc [PStr s]))]).
      rewrite Hshown. unfold w1. simpl. now rewrite <- app_assoc.
    + intros acc' Hend _.
      destruct (yielded k) as [|y ys] eqn:Hy.
      * pose proof (for_chunks_cases k (app acc [PStr s]) w1 Hc) as Hcases.
        rewrite Hend, Hy in Hcases. destruct Hcases as (_ & _ & ->).
        rewrite app_nil_r.
        assert (Hw : snd (for_chunks k (app acc [PStr s]) w1) = w1).
        { clear - Hy. revert w1. generalize (app acc [PStr s]).
          induction k; intros a w1; simpl in *;
            try discriminate; try reflexivity. now apply IHk. }
        rewrite Hw. unfold w1. simpl. eauto.
      * apply Hlast; [exact Hend | discriminate].
  - split; [now exists [] | ]. intros acc' _ H. now elim H.
  - split; [now exists [] | discriminate].
Qed.

Lemma joined_text_cons (s : string) (parts : list pyval) :
  all_str parts = true ->
  joined_text (PStr s :: parts) = s ++ joined_text parts.
Proof.
  intros H. unfold joined_text. simpl. now rewrite (py_join_all_str _ H).
Qed.

Lemma joined_text_snoc (acc : list pyval) (s : string) :
  all_str acc = true ->
  joined_text (app acc [PStr s]) = joined_text acc ++ s.
Proof.
  induction acc as [|x acc IH]; intros H.
  - simpl app. rewrite joined_text_cons by reflexivity.
    unfold joined_text. simpl. apply append_nil_r.
  - destruct x; try discriminate. simpl in H.
    change (app (PStr s0 :: acc) [PStr s]) with (PStr s0 :: app acc [PStr s]).
    rewrite !joined_text_cons, (IH H), ?string_app_assoc;
      [reflexivity | exact H | now rewrite all_str_app, H].
Qed.

(** What the loop renders: after each fragment, the text accumulated so
    far, the newest rendering first. *)
Lemma for_chunks_ui (g : gen) (acc : list pyval) (w : session) :
  all_str acc = true ->
  all_str (yielded g) = true ->
  ui (snd (for_chunks g acc w))
  = app (rev (map PlaceholderMarkdown
                  (running_texts (joined_text acc) (str_values (yielded g)))))
        (ui w).
Proof.
  revert acc w. induction g as [line k IH | chunk k IH | | e];
    intros acc w Hacc Hy; simpl in *; try reflexivity.
  - now apply IH.
  - destruct chunk; try discriminate.
    assert (Hc : all_str (app acc [PStr s]) = true)
      by (now rewrite all_str_app, Hacc).
    rewrite (py_join_all_str _ Hc), (IH _ _ Hc Hy).
    rewrite (joined_text_snoc _ _ Hacc). simpl.
    now rewrite <- app_assoc.
Qed.

(** X8. The reply block never raises, and what it leaves in the
    transcript is decided by the stream alone: when [stream_chat] returns
    and every fragment is a [str], one assistant message with the stripped
    concatenation of the fragments is appended; in every other case the
    transcript is what it was. *)
Theorem reply_commits_exactly_on_success
        (base_url api_key model : string) (temperature : float) (w : session) :
  fst (assistant_reply base_url api_key model temperature w) = Ret tt
  /\ messages (snd (assistant_reply base_url api_key model temperature w))
     = if completed
            (stream_chat base_url api_key model (messages w) temperature)
          && all_str
               (yielded
                  (stream_chat base_url api_key model (messages w) temperature))
       then
         app (messages w)
             [{| role := "assistant";
                 content :=
                   strip
                     (joined_text
                        (yielded
                           (stream_chat base_url api_key model (messages w)
                                        temperature))) |}]
       else messages w.
Proof.
  unfold assistant_reply, completed.
  pose proof (for_chunks_cases
                (stream_chat base_url api_key model (messages w) temperature)
                [] w eq_refl) as Hcases.
  pose proof (for_chunks_messages
                (stream_chat base_url api_key model (messages w) temperature)
                [] w) as Hm.
  destruct (for_chunks _ [] w) as [[acc | e | e] w']; simpl in Hcases, Hm.
  - destruct Hcases as (-> & Hs & ->). simpl app. rewrite Hs.
    rewrite (py_join_all_str _ Hs). simpl. now rewrite Hm.
  - destruct Hcases as (-> & _). simpl. now rewrite Hm.
  - destruct Hcases as (_ & ->). rewrite andb_false_r. simpl. now rewrite Hm.
Qed.

(** X9. An assistant message that the reply block appends never starts or
    ends with white space; the block appends that one message or nothing. *)
Theorem committed_reply_is_trimmed
        (base_url api_key model : string) (temperature : float) (w : session) :
  messages (snd (assistant_reply base_url api_key model temperature w))
  = messages w
  \/ exists reply,
      messages (snd (assistant_reply base_url api_key model temperature w))
      = app (messages w) [{| role := "assistant"; content := reply |}]
      /\ starts_in isspace reply = false
      /\ ends_in isspace reply = false.
Proof.
  unfold assistant_reply.
  pose proof (for_chunks_cases
                (stream_chat base_url api_key model (messages w) temperature)
                [] w eq_refl) as Hcases.
  pose proof (for_chunks_messages
                (stream_chat base_url api_key model (messages w) temperature)
                [] w) as Hm.
  destruct (for_chunks _ [] w) as [[acc | e | e] w']; simpl in Hcases, Hm;
    [|now left|now left].
  destruct Hcases as (_ & Hs & ->). simpl app.
  rewrite (py_join_all_str _ Hs). simpl. rewrite Hm. right.
  eexists. split; [reflexivity|].
  split; apply strip_trims_both_ends.
Qed.

(** X10. When every fragment is a [str] and [stream_chat] raises [e],
    the operator is shown [e] on top of the partial text: above what was
    rendered before the reply, the placeholder was given, fragment after
    fragment, the concatenation of the fragments received so far, and the
    error comes last.  The block raises nothing and the transcript is
    unchanged. *)
Theorem stream_failure_is_shown
        (base_url api_key model : string) (temperature : float)
        (w : session) (e : exn) :
  all_str (yielded (stream_chat base_url api_key model (messages w) temperature))
  = true ->
  outcome (stream_chat base_url api_key model (messages w) temperature)
  = Raised e ->
  fst (assistant_reply base_url api_key model temperature w) = Ret tt
  /\ ui (snd (assistant_reply base_url api_key model temperature w))
     = StError e
       :: app (rev (map PlaceholderMarkdown
                        (running_texts
                           ""
                           (str_values
                              (yielded
                                 (stream_chat base_url api_key model
                                              (messages w) temperature))))))
              (ui w)
  /\ messages (snd (assistant_reply base_url api_key model temperature w))
     = messages w.
Proof.
  intros Hs Ho. unfold assistant_reply.
  pose proof (for_chunks_cases
                (stream_chat base_url api_key model (messages w) temperature)
                [] w eq_refl) as Hcases.
  pose proof (for_chunks_messages
                (stream_chat base_url api_key model (messages w) temperature)
                [] w) as Hm.
  pose proof (for_chunks_ui
                (stream_chat base_url api_key model (messages w) temperature)
                [] w eq_refl Hs) as Hui.
  destruct (for_chunks _ [] w) as [[acc | e' | e'] w'];
    cbn [fst snd] in Hcases, Hui, Hm.
  - destruct Hcases as (Hc & _). rewrite Ho in Hc. discriminate.
  - destruct Hcases as (Hc & _). rewrite Ho in Hc. injection Hc as <-.
    cbn [fst snd render ui messages]. rewrite Hui, Hm. now repeat split.
  - destruct Hcases as (_ & Hc). rewrite Hs in Hc. discriminate.
Qed.

(** X11. When a fragment is not a [str] (a number as message content, for
    one), joining the chunks fails in the loop body: the operator is shown
    a [TypeError], the transcript is unchanged, even if the stream itself
    would have ended well. *)
Theorem non_text_fragment_aborts_reply
        (base_url api_key model : string) (temperature : float) (w : session) :
  all_str (yielded (stream_chat base_url api_key model (messages w) temperature))
  = false ->
  fst (assistant_reply base_url api_key model temperature w) = Ret tt
  /\ messages (snd (assistant_reply base_url api_key model temperature w))
     = messages w
  /\ exists shown,
      ui (snd (assistant_reply base_url api_key model temperature w))
      = StError TypeError :: app shown (ui w).
Proof.
  intros Hs. unfold assistant_reply.
  pose proof (for_chunks_cases
                (stream_chat base_url api_key model (messages w) temperature)
                [] w eq_refl) as Hcases.
  pose proof (for_chunks_messages
                (stream_chat base_url api_key model (messages w) temperature)
                [] w) as Hm.
  destruct (for_chunks_shows
              (stream_chat base_url api_key model (messages w) temperature)
              [] w eq_refl) as [[shown Hshown] _].
  destruct (for_chunks _ [] w) as [[acc | e' | e'] w'];
    simpl in Hcases, Hshown, Hm.
  - destruct Hcases as (_ & Hc & _). rewrite Hs in Hc. discriminate.
  - destruct Hcases as (_ & Hc). rewrite Hs in Hc. discriminate.
  - destruct Hcases as (-> & _). simpl. repeat split; [exact Hm|].
    exists shown. now rewrite Hshown.
Qed.

(** X12. When the stream ends well after at least one fragment, what is
    committed is the stripped form of the text shown last in the
    placeholder, which is the concatenation of all the fragments. *)
Theorem committed_reply_is_last_shown
        (base_url api_key model : string) (temperature : float)
        (w w' : session) (acc : list pyval) :
  for_chunks (stream_chat base_url api_key model (messages w) temperature)
             [] w
  = (Exhausted acc, w') ->
  acc <> [] ->
  exists earlier,
    ui (snd (assistant_reply base_url api_key model temperature w))
    = PlaceholderMarkdown (joined_text acc) :: earlier
    /\ messages (snd (assistant_reply base_url api_key model temperature w))
       = app (messages w)
             [{| role := "assistant"; content := strip (joined_text acc) |}].
Proof.
  intros Hloop Hne.
  pose proof (for_chunks_cases
                (stream_chat base_url api_key model (messages w) temperature)
                [] w eq_refl) as Hcases.
  pose proof (for_chunks_messages
                (stream_chat base_url api_key model (messages w) temperature)
                [] w) as Hm.
  destruct (for_chunks_shows
              (stream_chat base_url api_key model (messages w) temperature)
              [] w eq_refl) as [_ Hlast].
  rewrite Hloop in Hcases, Hm, Hlast. simpl in Hcases, Hm, Hlast.
  destruct Hcases as (_ & Hs & Hacc).
  destruct (Hlast acc eq_refl) as [earlier He]; [now rewrite <- Hacc|].
  exists earlier. unfold assistant_reply. rewrite Hloop.
  rewrite Hacc, (py_join_all_str _ Hs), <- Hacc. simpl.
  now rewrite He, Hm.
Qed.

(** **** A turn of the conversation *)

(** What one run of the reply block does to the transcript. *)
Lemma reply_step
      (base_url api_key model : string) (temperature : float) (w : session) :
  fst (assistant_reply base_url api_key model temperature w) = Ret tt
  /\ (messages (snd (assistant_reply base_url api_key model temperature w))
      = messages w
      \/ exists reply,
          messages (snd (assistant_reply base_url api_key model temperature w))
          = app (messages w) [{| role := "assistant"; content := reply |}]).
Proof.
  unfold assistant_reply.
  pose proof (for_chunks_cases
                (stream_chat base_url api_key model (messages w) temperature)
                [] w eq_refl) as Hcases.
  pose proof (for_chunks_messages
                (stream_chat base_url api_key model (messages w) temperature)
                [] w) as Hm.
  destruct (for_chunks _ [] w) as [[acc | e | e] w']; simpl in Hcases, Hm;
    [|split; [reflexivity | now left]|split; [reflexivity | now left]].
  destruct Hcases as (_ & Hs & ->). simpl app.
  rewrite (py_join_all_str _ Hs). simpl. rewrite Hm.
  split; [reflexivity | right; eauto].
Qed.

(** What one turn does to the transcript. *)
Lemma turn_step
      (base_url api_key model : string) (temperature : float)
      (prompt : option string) (w : session) :
  snd (on_prompt base_url api_key model temperature prompt w) = w
  \/ exists p replies,
      messages (snd (on_prompt base_url api_key model temperature prompt w))
      = app (messages w) ({| role := "user"; content := p |} :: replies)
      /\ (replies = []
          \/ exists reply,
              replies = [{| role := "assistant"; content := reply |}]).
Proof.
  destruct prompt as [p|]; simpl; [|now left].
  destruct (String.eqb p ""); simpl; [now left|]. right.
  unfold m_bind, m_do. simpl.
  set (w1 := render (ChatMarkdown "user" p)
                    (append_message {| role := "user"; content := p |} w)).
  destruct (reply_step base_url api_key model temperature w1)
    as [Hret [Hsame | (reply & Happ)]];
    rewrite (surjective_pairing (assistant_reply _ _ _ _ w1)), Hret; simpl.
  - exists p, []. rewrite Hsame. unfold w1. simpl. split; [reflexivity | now left].
  - exists p, [{| role := "assistant"; content := reply |}].
    rewrite Happ. unfold w1. simpl. rewrite <- app_assoc. simpl.
    split; [reflexivity | right; now exists reply].
Qed.


(** X13. A turn never raises and only appends to the transcript: without a
    prompt (none, or an empty one) the session is left as it is; with a
    prompt the user message is appended, followed by at most one assistant
    message.  The messages that were there stay, in their order. *)
Theorem on_prompt_only_appends
        (base_url api_key model : string) (temperature : float)
        (prompt : option string) (w : session) :
  fst (on_prompt base_url api_key model temperature prompt w) = Ret tt
  /\ match prompt with
     | None => snd (on_prompt base_url api_key model temperature prompt w) = w
     | Some p =>
         if String.eqb p ""
         then snd (on_prompt base_url api_key model temperature prompt w) = w
         else
           exists replies,
             messages (snd (on_prompt base_url api_key model temperature
                                      prompt w))
             = app (messages w)
                   ({| role := "user"; content := p |} :: replies)
             /\ (replies = []
                 \/ exists reply,
                     replies = [{| role := "assistant"; content := reply |}])
     end.
Proof.
  destruct prompt as [p|]; simpl; [|now split].
  destruct (String.eqb p ""); simpl; [now split|].
  unfold m_bind, m_do. simpl.
  set (w1 := render (ChatMarkdown "user" p)
                    (append_message {| role := "user"; content := p |} w)).
  destruct (reply_step base_url api_key model temperature w1)
    as [Hret [Hsame | (reply & Happ)]].
  - rewrite (surjective_pairing (assistant_reply _ _ _ _ w1)), Hret. simpl.
    split; [reflexivity|]. exists []. rewrite Hsame. unfold w1. simpl.
    split; [reflexivity | now left].
  - rewrite (surjective_pairing (assistant_reply _ _ _ _ w1)), Hret. simpl.
    split; [reflexivity|].
    exists [{| role := "assistant"; content := reply |}].
    rewrite Happ. unfold w1. simpl. rewrite <- app_assoc. simpl.
    split; [reflexivity | right; now exists reply].
Qed.

(** X14. A turn whose stream raises leaves the user message in the
    transcript without an answer: [stream_chat] is given the transcript
    with the new user message, and when it raises, the transcript after the
    turn is the old one followed by that message alone, the error being
    shown after the prompt. *)
Theorem failed_turn_keeps_user_message
        (base_url api_key model : string) (temperature : float)
        (p : string) (w : session) (e : exn) :
  p <> "" ->
  outcome (stream_chat base_url api_key model
                       (app (messages w) [{| role := "user"; content := p |}])
                       temperature)
  = Raised e ->
  fst (on_prompt base_url api_key model temperature (Some p) w) = Ret tt
  /\ messages (snd (on_prompt base_url api_key model temperature (Some p) w))
     = app (messages w) [{| role := "user"; content := p |}]
  /\ exists e' shown,
      ui (snd (on_prompt base_url api_key model temperature (Some p) w))
      = StError e' :: app shown (ChatMarkdown "user" p :: ui w).
Proof.
  intros Hp Hout. destruct p as [|c p']; [now elim Hp|]. clear Hp.
  set (p := String c p') in *.
  unfold on_prompt. change (truthy (PStr p)) with true. cbv iota.
  unfold m_bind, m_do. simpl.
  set (w1 := render (ChatMarkdown "user" p)
                    (append_message {| role := "user"; content := p |} w)).
  change (app (messages w) [{| role := "user"; content := p |}])
    with (messages w1) in Hout.
  unfold assistant_reply.
  pose proof (for_chunks_cases
                (stream_chat base_url api_key model (messages w1) temperature)
                [] w1 eq_refl) as Hcases.
  pose proof (for_chunks_messages
                (stream_chat base_url api_key model (messages w1) temperature)
                [] w1) as Hm.
  destruct (for_chunks_shows
              (stream_chat base_url api_key model (messages w1) temperature)
              [] w1 eq_refl) as [[shown Hshown] _].
  destruct (for_chunks _ [] w1) as [[acc | e' | e'] w'];
    cbn [fst snd] in Hcases, Hm, Hshown.
  - destruct Hcases as (Hc & _). rewrite Hout in Hc. discriminate.
  - cbn [fst snd render messages ui]. repeat split; [exact Hm|].
    exists e', shown. now rewrite Hshown.
  - cbn [fst snd render messages ui]. repeat split; [exact Hm|].
    exists e', shown. now rewrite Hshown.
Qed.

(** X15. The shape of the transcript is kept: a transcript that is the
    system message followed by user and assistant turns is still one after
    any turn, whatever the server answered; and the transcript after "Clear
    chat", like the one a fresh session starts with, is the system message
    alone. *)
Theorem transcript_shape_is_kept
        (base_url api_key model : string) (temperature : float)
        (prompt : option string) (w : session) :
  valid_transcript (messages w) ->
  valid_transcript
    (messages (snd (on_prompt base_url api_key model temperature prompt w)))
  /\ messages
       (clear_chat (snd (on_prompt base_url api_key model temperature prompt w)))
     = init_messages None
  /\ valid_transcript (init_messages None).
Proof.
  intros (turns & Hmsgs & Hturns).
  assert (Hinit : valid_transcript (init_messages None))
    by (exists []; split; [reflexivity | constructor]).
  split; [|split; [reflexivity | exact Hinit]].
  destruct (turn_step base_url api_key model temperature prompt w)
    as [-> | (p & replies & Happ & Hreplies)].
  - now exists turns.
  - rewrite Happ, Hmsgs.
    exists (app turns ({| role := "user"; content := p |} :: replies)).
    split; [reflexivity|].
    apply Forall_app. split; [exact Hturns|].
    constructor; [now left|].
    destruct Hreplies as [-> | (reply & ->)];
      [constructor | constructor; [now right | constructor]].
Qed.

(** X16. Rendering the history shows every message that is not a system
    message, with its role and content, in the order of the transcript
    (the newest rendering first in [ui]); system messages are never shown
    and the transcript is not touched. *)
Theorem render_history_skips_system (msgs : list message) (w : session) :
  render_history msgs w
  = {| messages := messages w;
       ui := app (rev (map (fun m => ChatMarkdown (role m) (content m))
                           (filter (fun m => negb (String.eqb (role m) "system"))
                                   msgs)))
                 (ui w) |}.
Proof.
  revert w. induction msgs as [|m msgs IH]; intros w.
  - now destruct w.
  - simpl. destruct (String.eqb (role m) "system"); simpl; [apply IH|].
    rewrite IH. simpl. now rewrite <- app_assoc.
Qed.

(** **** The catalog on any response *)

Lemma py_mapM_names_inv (records names : list pyval) :
  py_mapM (fun m => py_getitem m "name") records = Ret names ->
  Forall2 (fun m n => exists fields,
               m = PDict fields /\ dict_lookup "name" fields = Some n)
          records names.
Proof.
  revert names. induction records as [|m records IH]; intros names H.
  - injection H as <-. constructor.
  - simpl in H.
    destruct m as [| b | z | f | s | l | fields]; try discriminate.
    simpl in H. destruct (dict_lookup "name" fields) as [n|] eqn:Hn;
      [|discriminate].
    simpl in H.
    destruct (py_mapM (fun m => py_getitem m "name") records) as [rest|];
      [|discriminate].
    injection H as <-. constructor; [now exists fields | now apply IH].
Qed.

Lemma py_mapM_names_of_strings (keys : list string) :
  keys <> [] ->
  py_mapM (fun m => py_getitem m "name") (map PStr keys) = Raise TypeError.
Proof.
  destruct keys as [|k keys]; [now intros H; elim H | reflexivity].
Qed.

(** The [try] suite returns exactly on a well-formed catalog. *)
Lemma fetch_models_returns (base_url api_key : string) (names : list pyval) :
  fetch_models base_url api_key = Ret names <->
  exists r d,
    tags_request base_url api_key = Ret r
    /\ raise_for_status r = Ret tt
    /\ json_loads (text r) = Ret (PDict d)
    /\ catalog_names d names.
Proof.
  unfold fetch_models, resp_json. split.
  - destruct (tags_request base_url api_key) as [r|e]; [|discriminate].
    simpl. destruct (raise_for_status r) as [[]|e] eqn:Hst; [|discriminate].
    simpl. destruct (json_loads (text r)) as [data|] eqn:Hjson;
      [|discriminate].
    simpl. destruct data as [| b | z | f | s | l | d]; try discriminate.
    simpl. intros H. exists r, d.
    split; [reflexivity|]. split; [exact Hst|]. split; [exact Hjson|].
    destruct (dict_lookup "models" d) as [models|] eqn:Hm; simpl in H.
    + destruct models as [| b | z | f | s | records | d']; try discriminate;
        simpl in H.
      * destruct s as [|c s]; [|discriminate].
        injection H as <-. now apply NamesOfEmptyString.
      * apply (NamesOfRecords d records names Hm).
        now apply py_mapM_names_inv.
      * destruct d' as [|kv d']; [|discriminate].
        injection H as <-. now apply NamesOfEmptyObject.
    + injection H as <-. now apply NamesMissing.
  - intros (r & d & Hreq & Hst & Hjson & Hnames).
    rewrite Hreq. simpl. rewrite Hst. simpl. rewrite Hjson. simpl.
    destruct Hnames as [Hm | records names Hm Hall | Hm | Hm];
      rewrite Hm; simpl; try reflexivity.
    now apply py_mapM_names.
Qed.

(** X17. [list_models] has two outcomes and no other.  Either the request
    was answered with a status that is not refused and a body that decodes
    to an object whose [models] holds records with names (or is missing or
    empty), and the result is those names with nothing rendered; or it is
    not so, and the result is the default list with one warning. *)
Theorem list_models_names_or_default
        (base_url api_key : string) (w : session) :
  (exists r d names,
      tags_request base_url api_key = Ret r
      /\ raise_for_status r = Ret tt
      /\ json_loads (text r) = Ret (PDict d)
      /\ catalog_names d names
      /\ list_models base_url api_key w = (Ret names, w))
  \/ ((forall r d names,
          tags_request base_url api_key = Ret r ->
          raise_for_status r = Ret tt ->
          json_loads (text r) = Ret (PDict d) ->
          ~ catalog_names d names)
      /\ exists e,
          list_models base_url api_key w
          = (Ret default_models, render (StWarning base_url e) w)).
Proof.
  destruct (fetch_models base_url api_key) as [names|e] eqn:Hfetch.
  - left. destruct (proj1 (fetch_models_returns _ _ _) Hfetch)
      as (r & d & Hreq & Hst & Hjson & Hnames).
    exists r, d, names. repeat split; try assumption.
    unfold list_models, try_except, m_lift. now rewrite Hfetch.
  - right. split.
    + intros r d names Hreq Hst Hjson Hnames.
      assert (H : fetch_models base_url api_key = Ret names)
        by (apply fetch_models_returns; exists r, d; now repeat split).
      rewrite Hfetch in H. discriminate.
    + exists e. now apply list_models_fallback.
Qed.

(** X18. Trailing slashes on the base address change nothing of what the
    script asks of the server: [stream_chat] is the same generator, and
    [list_models] returns the same list (its warning, if any, quotes the
    address as it was given). *)
Theorem trailing_slash_reaches_no_request
        (base_url api_key model : string) (msgs : list message)
        (temperature : float) (w : session) :
  stream_chat (base_url ++ "/") api_key model msgs temperature
  = stream_chat base_url api_key model msgs temperature
  /\ fst (list_models (base_url ++ "/") api_key w)
     = fst (list_models base_url api_key w)
  /\ messages (snd (list_models (base_url ++ "/") api_key w))
     = messages (snd (list_models base_url api_key w)).
Proof.
  assert (Hurl : forall path,
             api_url (base_url ++ "/") path = api_url base_url path).
  { intros path. unfold api_url, rstrip. f_equal. now apply rstrip_by_snoc. }
  split; [|].
  - unfold stream_chat, chat_request. now rewrite Hurl.
  - unfold list_models, try_except, m_lift, fetch_models, tags_request.
    rewrite Hurl.
    destruct (py_bind _ _); simpl; now split.
Qed.

(** **** The sidebar *)

(** X19. On the first run the endpoint is one of the two fixed addresses,
    whatever [DEFAULT_BASE_URL] holds: the cloud address when it starts
    with the cloud address, the local one otherwise.  A configured address
    is used only once "Custom" is chosen, where it is the value of the
    text input. *)
Theorem initial_endpoint_is_fixed (default_base_url custom : string) :
  initial_base_url default_base_url
  = (if String.prefix cloud_url default_base_url
     then cloud_url else local_url)
  /\ choose_base_url "Custom" custom = custom
  /\ forall choice,
      In choice endpoint_options ->
      choice <> "Custom" ->
      choose_base_url choice custom = local_url
      \/ choose_base_url choice custom = cloud_url.
Proof.
  split; [|split].
  - unfold initial_base_url, default_endpoint_index, cloud_url.
    now destruct (String.prefix "https://ollama.com" default_base_url).
  - reflexivity.
  - intros choice [<- | [<- | [<- | []]]] H.
    + now left.
    + now right.
    + now elim H.
Qed.

End Script.

(** ** The script on the sample servers *)

Lemma hello_stream_trace :
  stream_chat json_loads_lite (answers_chat 200 hello_lines None)
              local_url "" "phi4" (messages asked) 0.5%float
  = Pull hel_line (Yield (PStr "Hel")
      (Pull "" (Pull "not json"
         (Pull lo_line (Yield (PStr "lo") (Pull done_true_line Stop)))))).
Proof. vm_compute. reflexivity. Qed.

Lemma stream_fragments_accumulated_witness :
  for_chunks
    (stream_chat json_loads_lite (answers_chat 200 hello_lines None)
                 local_url "" "phi4" (messages asked) 0.5%float)
    [] asked
  = (Exhausted [PStr "Hel"; PStr "lo"],
     render (PlaceholderMarkdown "Hello")
            (render (PlaceholderMarkdown "Hel") asked))
  /\ exists (r : response) (fragments : list string),
      chat_request (answers_chat 200 hello_lines None)
                   local_url "" "phi4" (messages asked) 0.5%float = Ret r
      /\ lines_read
           (stream_chat json_loads_lite (answers_chat 200 hello_lines None)
                        local_url "" "phi4" (messages asked) 0.5%float)
         = until_done json_loads_lite (iter_lines r)
      /\ yielded
           (stream_chat json_loads_lite (answers_chat 200 hello_lines None)
                        local_url "" "phi4" (messages asked) 0.5%float)
         = fragments_of json_loads_lite
             (until_done json_loads_lite (iter_lines r))
      /\ [PStr "Hel"; PStr "lo"]
         = yielded
             (stream_chat json_loads_lite (answers_chat 200 hello_lines None)
                          local_url "" "phi4" (messages asked) 0.5%float)
      /\ [PStr "Hel"; PStr "lo"] = map PStr fragments
      /\ py_join [PStr "Hel"; PStr "lo"] = Ret (String.concat "" fragments).
Proof.
  assert (H : for_chunks
                (stream_chat json_loads_lite (answers_chat 200 hello_lines None)
                             local_url "" "phi4" (messages asked) 0.5%float)
                [] asked
              = (Exhausted [PStr "Hel"; PStr "lo"],
                 render (PlaceholderMarkdown "Hello")
                        (render (PlaceholderMarkdown "Hel") asked)))
    by (vm_compute; reflexivity).
  split; [exact H|].
  exact (stream_fragments_accumulated json_loads_lite
           (answers_chat 200 hello_lines None)
           local_url "" "phi4" (messages asked) 0.5%float asked _ _ H).
Defined.

Lemma error_line_aborts_stream_witness :
  outcome (stream_chat json_loads_lite (answers_chat 200 rate_limited_lines None)
                       local_url "" "phi4" (messages asked) 0.5%float)
  = Raised (RuntimeError (PStr "rate limited"))
  /\ lines_read
       (stream_chat json_loads_lite (answers_chat 200 rate_limited_lines None)
                    local_url "" "phi4" (messages asked) 0.5%float)
     = [hel_line; rate_limited_line]
  /\ yielded
       (stream_chat json_loads_lite (answers_chat 200 rate_limited_lines None)
                    local_url "" "phi4" (messages asked) 0.5%float)
     = fragments_of json_loads_lite [hel_line]
  /\ yielded
       (stream_chat json_loads_lite (answers_chat 200 rate_limited_lines None)
                    local_url "" "phi4" (messages asked) 0.5%float)
     = yielded (read_lines json_loads_lite [hel_line] None).
Proof.
  apply (error_line_aborts_stream json_loads_lite
           (answers_chat 200 rate_limited_lines None)
           local_url "" "phi4" (messages asked) 0.5%float
           {| status_code := 200; text := "";
              iter_lines := rate_limited_lines; stream_error := None |}
           [hel_line] [lo_line; done_true_line] rate_limited_line
           [("error", PStr "rate limited")] (PStr "rate limited"));
    vm_compute; reflexivity.
Defined.

Lemma failed_stream_commits_nothing_witness :
  outcome (stream_chat json_loads_lite (answers_chat 200 rate_limited_lines None)
                       local_url "" "phi4" (messages asked) 0.5%float)
  = Raised (RuntimeError (PStr "rate limited"))
  /\ fst (assistant_reply json_loads_lite
            (answers_chat 200 rate_limited_lines None)
            local_url "" "phi4" 0.5%float asked) = Ret tt
  /\ messages (snd (assistant_reply json_loads_lite
                      (answers_chat 200 rate_limited_lines None)
                      local_url "" "phi4" 0.5%float asked))
     = messages asked.
Proof.
  assert (H : outcome
                (stream_chat json_loads_lite
                             (answers_chat 200 rate_limited_lines None)
                             local_url "" "phi4" (messages asked) 0.5%float)
              = Raised (RuntimeError (PStr "rate limited")))
    by (vm_compute; reflexivity).
  split; [exact H|].
  exact (failed_stream_commits_nothing json_loads_lite
           (answers_chat 200 rate_limited_lines None)
           local_url "" "phi4" 0.5%float asked _ H).
Defined.

Lemma completed_stream_commits_once_witness :
  yielded (stream_chat json_loads_lite (answers_chat 200 padded_lines None)
                       local_url "" "phi4" (messages asked) 0.5%float)
  = [PStr "  Hel"; PStr ("lo, world " ++ String "010" "")]
  /\ messages (snd (assistant_reply json_loads_lite
                      (answers_chat 200 padded_lines None)
                      local_url "" "phi4" 0.5%float asked))
     = app (messages asked)
           [{| role := "assistant"; content := "Hello, world" |}]
  /\ exists (fragments : list string) (reply lead trail : string),
      yielded (stream_chat json_loads_lite (answers_chat 200 padded_lines None)
                           local_url "" "phi4" (messages asked) 0.5%float)
      = map PStr fragments
      /\ fst (assistant_reply json_loads_lite
                              (answers_chat 200 padded_lines None)
                              local_url "" "phi4" 0.5%float asked) = Ret tt
      /\ messages (snd (assistant_reply json_loads_lite
                          (answers_chat 200 padded_lines None)
                          local_url "" "phi4" 0.5%float asked))
         = app (messages asked) [{| role := "assistant"; content := reply |}]
      /\ reply = strip (String.concat "" fragments)
      /\ String.concat "" fragments = lead ++ reply ++ trail
      /\ all_chars isspace lead = true
      /\ all_chars isspace trail = true
      /\ starts_in isspace reply = false
      /\ ends_in isspace reply = false
      /\ (fragments = [] -> reply = "").
Proof.
  split; [vm_compute; reflexivity|]. split; [vm_compute; reflexivity|].
  apply (completed_stream_commits_once json_loads_lite
           (answers_chat 200 padded_lines None)
           local_url "" "phi4" 0.5%float asked
           (snd (for_chunks
                   (stream_chat json_loads_lite
                      (answers_chat 200 padded_lines None)
                      local_url "" "phi4" (messages asked) 0.5%float)
                   [] asked))
           [PStr "  Hel"; PStr ("lo, world " ++ String "010" "")]).
  vm_compute. reflexivity.
Defined.

(** The end-to-end scenario: the committed assistant turn is "Hello". *)
Lemma hello_is_committed :
  messages (snd (on_prompt json_loads_lite (answers_chat 200 hello_lines None)
                           local_url "" "phi4" 0.5%float (Some "Say hello")
                           {| messages := [system_message]; ui := [] |}))
  = [system_message;
     {| role := "user"; content := "Say hello" |};
     {| role := "assistant"; content := "Hello" |}].
Proof. vm_compute. reflexivity. Qed.

Lemma list_models_returns_names_witness :
  json_loads_lite catalog_body
  = Ret (PDict [("models",
                  PList [PDict [("name", PStr "qwen2.5:7b"); ("size", PInt 4683)];
                         PDict [("name", PStr "phi4")];
                         PDict [("name", PStr "phi4")]])])
  /\ list_models json_loads_lite (answers_tags 200 catalog_body)
                 local_url "" {| messages := [system_message]; ui := [] |}
     = (Ret [PStr "qwen2.5:7b"; PStr "phi4"; PStr "phi4"],
        {| messages := [system_message]; ui := [] |}).
Proof.
  split; [vm_compute; reflexivity|].
  apply (list_models_returns_names json_loads_lite
           (answers_tags 200 catalog_body) local_url ""
           {| messages := [system_message]; ui := [] |}
           {| status_code := 200; text := catalog_body;
              iter_lines := []; stream_error := None |}
           [("models",
             PList [PDict [("name", PStr "qwen2.5:7b"); ("size", PInt 4683)];
                    PDict [("name", PStr "phi4")];
                    PDict [("name", PStr "phi4")]])]
           [PDict [("name", PStr "qwen2.5:7b"); ("size", PInt 4683)];
            PDict [("name", PStr "phi4")];
            PDict [("name", PStr "phi4")]]).
  - reflexivity.
  - simpl. lia.
  - vm_compute. reflexivity.
  - reflexivity.
  - repeat constructor; eexists; split; reflexivity.
Defined.

Lemma list_models_falls_back_witness :
  (exists e,
      list_models json_loads_lite (answers_tags 200 nameless_body)
                  local_url "" {| messages := [system_message]; ui := [] |}
      = (Ret default_models,
         render (StWarning local_url e)
                {| messages := [system_message]; ui := [] |})
      /\ default_models
         = [PStr "llama3.1"; PStr "llama3"; PStr "qwen2.5"; PStr "phi4"])
  /\ list_models json_loads_lite (answers_tags 200 "{}")
                 local_url "" {| messages := [system_message]; ui := [] |}
     = (Ret [], {| messages := [system_message]; ui := [] |}).
Proof.
  split.
  - apply (list_models_falls_back json_loads_lite
             (answers_tags 200 nameless_body) local_url ""
             {| messages := [system_message]; ui := [] |}).
    right. right. right.
    exists {| status_code := 200; text := nameless_body;
              iter_lines := []; stream_error := None |},
           [("models", PList [PDict [("name", PStr "phi4")];
                              PDict [("model", PStr "llama3")]])],
           [PDict [("name", PStr "phi4")]; PDict [("model", PStr "llama3")]],
           [("model", PStr "llama3")].
    repeat split; try (vm_compute; reflexivity).
    right. left. reflexivity.
  - apply (list_models_falls_back json_loads_lite
             (answers_tags 200 "{}") local_url ""
             {| messages := [system_message]; ui := [] |})
      with (r := {| status_code := 200; text := "{}";
                    iter_lines := []; stream_error := None |})
           (d := []);
      try reflexivity.
    simpl. lia.
Defined.

(** C4 fails as stated: an object with no [models] field is answered with
    the empty list and no warning; and a status outside 2xx that is not an
    error status is not refused. *)
Lemma list_models_missing_models_field :
  json_loads_lite "{}" = Ret (PDict [])
  /\ list_models json_loads_lite (answers_tags 200 "{}") local_url ""
                 {| messages := [system_message]; ui := [] |}
     = (Ret [], {| messages := [system_message]; ui := [] |})
  /\ list_models json_loads_lite (answers_tags 300 catalog_body) local_url ""
                 {| messages := [system_message]; ui := [] |}
     = (Ret [PStr "qwen2.5:7b"; PStr "phi4"; PStr "phi4"],
        {| messages := [system_message]; ui := [] |}).
Proof. repeat split; vm_compute; reflexivity. Qed.

Lemma done_line_stops_stream_witness :
  outcome (stream_chat json_loads_lite (answers_chat 200 hello_lines None)
                       local_url "" "phi4" (messages asked) 0.5%float)
  = Completed
  /\ lines_read
       (stream_chat json_loads_lite (answers_chat 200 hello_lines None)
                    local_url "" "phi4" (messages asked) 0.5%float)
     = app [hel_line; ""; "not json"; lo_line] [done_true_line]
  /\ yielded
       (stream_chat json_loads_lite (answers_chat 200 hello_lines None)
                    local_url "" "phi4" (messages asked) 0.5%float)
     = fragments_of json_loads_lite
         (app [hel_line; ""; "not json"; lo_line] [done_true_line]).
Proof.
  apply (done_line_stops_stream json_loads_lite
           (answers_chat 200 hello_lines None)
           local_url "" "phi4" (messages asked) 0.5%float
           {| status_code := 200; text := "";
              iter_lines := hello_lines; stream_error := None |}
           [hel_line; ""; "not json"; lo_line]
           [dq "{'message':{'content':' again'}}"] done_true_line
           [("done", PBool true)] (PBool true));
    vm_compute; reflexivity.
Defined.

(** C6 fails as stated: a line that carries [done: true] together with
    [error] does not end the stream with success. *)
Lemma done_line_with_error_raises :
  done_line json_loads_lite error_and_done_line = true
  /\ outcome
       (stream_chat json_loads_lite
          (answers_chat 200 [hel_line; error_and_done_line; lo_line] None)
          local_url "" "phi4" (messages asked) 0.5%float)
     = Raised (RuntimeError (PStr "boom"))
  /\ outcome
       (stream_chat json_loads_lite
          (answers_chat 200 [hel_line; error_and_done_line; lo_line] None)
          local_url "" "phi4" (messages asked) 0.5%float)
     <> Completed.
Proof.
  repeat split; try (vm_compute; reflexivity).
  vm_compute. discriminate.
Qed.

Lemma stream_chat_failure_causes_witness :
  forallb (object_shaped json_loads_lite) rate_limited_lines = true
  /\ outcome
       (stream_chat json_loads_lite (answers_chat 200 rate_limited_lines None)
                    local_url "" "phi4" (messages asked) 0.5%float)
     = Raised (RuntimeError (PStr "rate limited"))
  /\ loop_body json_loads_lite "not json" = (None, Next).
Proof.
  assert (Hshape : forall r,
             chat_request (answers_chat 200 rate_limited_lines None)
                          local_url "" "phi4" (messages asked) 0.5%float
             = Ret r ->
             forallb (object_shaped json_loads_lite) (iter_lines r) = true)
    by (intros r [= <-]; vm_compute; reflexivity).
  destruct (stream_chat_failure_causes json_loads_lite
              (answers_chat 200 rate_limited_lines None)
              local_url "" "phi4" (messages asked) 0.5%float
              (RuntimeError (PStr "rate limited")) Hshape)
    as (Hiff & _ & _ & Hskip).
  split; [vm_compute; reflexivity|]. split.
  - apply Hiff. right. right. left.
    exists {| status_code := 200; text := "";
              iter_lines := rate_limited_lines; stream_error := None |},
           [hel_line], rate_limited_line, [lo_line; done_true_line],
           [("error", PStr "rate limited")], (PStr "rate limited").
    repeat split; try (vm_compute; reflexivity).
    simpl. lia.
  - apply (Hskip "not json"). right. left. vm_compute. reflexivity.
Defined.

(** C5 fails as stated: a connection that drops after a fragment makes
    [stream_chat] raise although the status is 200 and no line carries
    [error]; and a status outside 2xx that is not an error status is not
    refused. *)
Lemma stream_chat_other_failures :
  (outcome
     (stream_chat json_loads_lite
        (answers_chat 200 [hel_line]
                      (Some (RequestException "Connection broken")))
        local_url "" "phi4" (messages asked) 0.5%float)
   = Raised (RequestException "Connection broken")
   /\ error_of json_loads_lite hel_line = None)
  /\ stream_chat json_loads_lite (answers_chat 304 [] None)
                 local_url "" "phi4" (messages asked) 0.5%float
     = Stop.
Proof. repeat split; vm_compute; reflexivity. Qed.

(** Lines that decode to something the loop is not written for raise:
    a number, and an object whose [message] is a string. *)
Lemma scalar_line_raises :
  outcome (stream_chat json_loads_lite
             (answers_chat 200 [hel_line; "5"; lo_line] None)
             local_url "" "phi4" (messages asked) 0.5%float)
  = Raised TypeError
  /\ outcome (stream_chat json_loads_lite
                (answers_chat 200 [hel_line; dq "{'message':'hi'}"; lo_line] None)
                local_url "" "phi4" (messages asked) 0.5%float)
     = Raised AttributeError.
Proof. split; vm_compute; reflexivity. Qed.

(** ** Further runs on the sample servers *)

Lemma stream_without_done_completes_witness :
  all_continue json_loads_lite unmarked_lines = true
  /\ outcome (stream_chat json_loads_lite (answers_chat 200 unmarked_lines None)
                          local_url "" "phi4" (messages asked) 0.5%float)
     = Completed
  /\ lines_read
       (stream_chat json_loads_lite (answers_chat 200 unmarked_lines None)
                    local_url "" "phi4" (messages asked) 0.5%float)
     = unmarked_lines
  /\ yielded
       (stream_chat json_loads_lite (answers_chat 200 unmarked_lines None)
                    local_url "" "phi4" (messages asked) 0.5%float)
     = fragments_of json_loads_lite unmarked_lines.
Proof.
  split; [vm_compute; reflexivity|].
  apply (stream_without_done_completes json_loads_lite
           (answers_chat 200 unmarked_lines None)
           local_url "" "phi4" (messages asked) 0.5%float
           {| status_code := 200; text := "";
              iter_lines := unmarked_lines; stream_error := None |});
    vm_compute; reflexivity.
Defined.

Lemma stream_failure_is_shown_witness :
  yielded (stream_chat json_loads_lite (answers_chat 200 late_error_lines None)
                       local_url "" "phi4" (messages asked) 0.5%float)
  = [PStr "Hel"; PStr "lo"]
  /\ ui (snd (assistant_reply json_loads_lite
                (answers_chat 200 late_error_lines None)
                local_url "" "phi4" 0.5%float asked))
     = [StError (RuntimeError (PStr "rate limited"));
        PlaceholderMarkdown "Hello"; PlaceholderMarkdown "Hel"]
  /\ fst (assistant_reply json_loads_lite
                          (answers_chat 200 late_error_lines None)
                          local_url "" "phi4" 0.5%float asked) = Ret tt
  /\ ui (snd (assistant_reply json_loads_lite
                (answers_chat 200 late_error_lines None)
                local_url "" "phi4" 0.5%float asked))
     = StError (RuntimeError (PStr "rate limited"))
       :: app (rev (map PlaceholderMarkdown
                        (running_texts
                           ""
                           (str_values
                              (yielded
                                 (stream_chat json_loads_lite
                                    (answers_chat 200 late_error_lines None)
                                    local_url "" "phi4" (messages asked)
                                    0.5%float))))))
              (ui asked)
  /\ messages (snd (assistant_reply json_loads_lite
                      (answers_chat 200 late_error_lines None)
                      local_url "" "phi4" 0.5%float asked))
     = messages asked.
Proof.
  split; [vm_compute; reflexivity|]. split; [vm_compute; reflexivity|].
  apply (stream_failure_is_shown json_loads_lite
           (answers_chat 200 late_error_lines None)
           local_url "" "phi4" 0.5%float asked
           (RuntimeError (PStr "rate limited")));
    vm_compute; reflexivity.
Defined.

Lemma stream_chat_reads_a_prefix_witness :
  lines_read (stream_chat json_loads_lite (answers_chat 401 hello_lines None)
                          local_url "" "phi4" (messages asked) 0.5%float) = []
  /\ yielded (stream_chat json_loads_lite (answers_chat 401 hello_lines None)
                          local_url "" "phi4" (messages asked) 0.5%float) = []
  /\ outcome (stream_chat json_loads_lite (answers_chat 401 hello_lines None)
                          local_url "" "phi4" (messages asked) 0.5%float)
     = Raised (HTTPError 401).
Proof.
  apply (stream_chat_reads_a_prefix json_loads_lite
           (answers_chat 401 hello_lines None)
           local_url "" "phi4" (messages asked) 0.5%float).
  simpl. lia.
Defined.

Lemma non_text_fragment_aborts_reply_witness :
  yielded (stream_chat json_loads_lite (answers_chat 200 number_lines None)
                       local_url "" "phi4" (messages asked) 0.5%float)
  = [PStr "Hel"; PInt 5]
  /\ fst (assistant_reply json_loads_lite (answers_chat 200 number_lines None)
                          local_url "" "phi4" 0.5%float asked) = Ret tt
  /\ messages (snd (assistant_reply json_loads_lite
                      (answers_chat 200 number_lines None)
                      local_url "" "phi4" 0.5%float asked))
     = messages asked
  /\ exists shown,
      ui (snd (assistant_reply json_loads_lite
                 (answers_chat 200 number_lines None)
                 local_url "" "phi4" 0.5%float asked))
      = StError TypeError :: app shown (ui asked).
Proof.
  split; [vm_compute; reflexivity|].
  apply (non_text_fragment_aborts_reply json_loads_lite
           (answers_chat 200 number_lines None)
           local_url "" "phi4" 0.5%float asked).
  vm_compute. reflexivity.
Defined.

Lemma committed_reply_is_last_shown_witness :
  exists earlier,
    ui (snd (assistant_reply json_loads_lite (answers_chat 200 hello_lines None)
                             local_url "" "phi4" 0.5%float asked))
    = PlaceholderMarkdown (joined_text [PStr "Hel"; PStr "lo"]) :: earlier
    /\ messages (snd (assistant_reply json_loads_lite
                        (answers_chat 200 hello_lines None)
                        local_url "" "phi4" 0.5%float asked))
       = app (messages asked)
             [{| role := "assistant";
                 content := strip (joined_text [PStr "Hel"; PStr "lo"]) |}].
Proof.
  apply (committed_reply_is_last_shown json_loads_lite
           (answers_chat 200 hello_lines None)
           local_url "" "phi4" 0.5%float asked
           (render (PlaceholderMarkdown "Hello")
                   (render (PlaceholderMarkdown "Hel") asked))
           [PStr "Hel"; PStr "lo"]).
  - vm_compute. reflexivity.
  - discriminate.
Defined.

Lemma transcript_shape_is_kept_witness :
  valid_transcript (messages asked)
  /\ valid_transcript
       (messages (snd (on_prompt json_loads_lite
                         (answers_chat 200 hello_lines None)
                         local_url "" "phi4" 0.5%float (Some "Again") asked)))
  /\ messages
       (clear_chat (snd (on_prompt json_loads_lite
                           (answers_chat 200 hello_lines None)
                           local_url "" "phi4" 0.5%float (Some "Again") asked)))
     = init_messages None
  /\ valid_transcript (init_messages None).
Proof.
  assert (H : valid_transcript (messages asked)).
  { exists [{| role := "user"; content := "Say hello" |}].
    split; [reflexivity|]. constructor; [now left | constructor]. }
  split; [exact H|].
  exact (transcript_shape_is_kept json_loads_lite
           (answers_chat 200 hello_lines None)
           local_url "" "phi4" 0.5%float (Some "Again") asked H).
Defined.

(** The number line is yielded as it is, and the loop of the script fails
    on it. *)
Lemma number_content_is_yielded :
  stream_chat json_loads_lite (answers_chat 200 number_lines None)
              local_url "" "phi4" (messages asked) 0.5%float
  = Pull hel_line (Yield (PStr "Hel")
      (Pull number_content_line (Yield (PInt 5)
         (Pull done_true_line Stop)))).
Proof. vm_compute. reflexivity. Qed.

Lemma failed_turn_keeps_user_message_witness :
  fst (on_prompt json_loads_lite refuses_chat
                 local_url "" "phi4" 0.5%float (Some "Again") asked) = Ret tt
  /\ messages (snd (on_prompt json_loads_lite refuses_chat
                              local_url "" "phi4" 0.5%float (Some "Again") asked))
     = app (messages asked) [{| role := "user"; content := "Again" |}]
  /\ exists e' shown,
      ui (snd (on_prompt json_loads_lite refuses_chat
                         local_url "" "phi4" 0.5%float (Some "Again") asked))
      = StError e' :: app shown (ChatMarkdown "user" "Again" :: ui asked).
Proof.
  apply (failed_turn_keeps_user_message json_loads_lite refuses_chat
           local_url "" "phi4" 0.5%float "Again" asked
           (RequestException "Connection refused")).
  - discriminate.
  - reflexivity.
Defined.

(** A line that [json.loads] does not refuse as JSON but fails to convert
    (an integer of 4301 digits) makes [stream_chat] raise [ValueError]. *)
Lemma long_integer_line_raises :
  json_loads_lite long_integer_line = Raise ValueError
  /\ outcome (stream_chat json_loads_lite
                (answers_chat 200 [hel_line; long_integer_line; lo_line] None)
                local_url "" "phi4" (messages asked) 0.5%float)
     = Raised ValueError.
Proof. split; vm_compute; reflexivity. Qed.

(** The code points that [isspace] takes for white space. *)
Lemma isspace_code_points (c : ascii) :
  isspace c = true <->
  In (nat_of_ascii c) [9; 10; 11; 12; 13; 28; 29; 30; 31; 32; 133; 160]%nat.
Proof.
  destruct c as [[] [] [] [] [] [] [] []]; vm_compute;
    split; intros H; try discriminate; try reflexivity;
    repeat (destruct H as [H | H]; try discriminate H; try contradiction);
    repeat (first [left; reflexivity | right]).
Qed.
